(** * BscRadar pool analysis engine: a shallow embedding

    The development follows the JavaScript sources:
    - [PriceService]   (services/PriceService.js): oracle state, price
      derivation and the liquidity-weighted aggregate price;
    - [PoolAnalyzer]   (services/PoolAnalyzer.js): enrichment, formatting,
      trade scoring, safety checks, warnings and request de-duplication;
    - [Router]         (services/MultiHopRouterService.js): leg output estimate;
    - [Cache]          (utils/Cache.js): per-key locks and the single-flight fill.

    Conventions of the embedding.
    - A JavaScript Number is a [JS.number]: an exact rational, or one of the
      IEEE special values +Infinity, -Infinity and NaN, with the IEEE rules for
      them (x/0, Infinity*0, comparisons with NaN ...).  Rounding to 53 bits
      and overflow are not part of the model: finite arithmetic is exact.
    - A BigInt is a [Z].  [ethers.formatUnits] followed by [Number] is the
      exact quotient by a power of ten.
    - A numeric string that the code writes with [toString] and reads back with
      [parseFloat] is kept as the number it denotes; a decimal string of a
      BigInt compared with ['0'] is kept as the integer.
    - An object used as a dictionary is a [gmap]; [undefined] is [None]. *)

From Stdlib Require Import ZArith QArith Qround Qminmax Qabs Lia Lqa List String Ascii Bool.
From stdpp Require Import base option gmap strings list sorting.

Set Default Proof Using "Type".
Local Open Scope Z_scope.

(** ** JavaScript numbers *)

Module JS.

Inductive number : Type :=
| Fin (q : Q)
| PosInf
| NegInf
| NaN.

Definition of_Z (z : Z) : number := Fin (inject_Z z).

(** The decimal literal [n / d], e.g. [0.001] is [lit 1 1000]. *)
Definition lit (n : Z) (d : positive) : number := Fin (n # d).

Definition sgn (q : Q) : Z := Z.sgn (Qnum q).

Definition inf_of_sign (s : Z) : number :=
  match s with
  | Z0 => NaN
  | Zpos _ => PosInf
  | Zneg _ => NegInf
  end.

Definition neg (x : number) : number :=
  match x with
  | Fin q => Fin (- q)
  | PosInf => NegInf
  | NegInf => PosInf
  | NaN => NaN
  end.

Definition add (x y : number) : number :=
  match x, y with
  | NaN, _ | _, NaN => NaN
  | Fin a, Fin b => Fin (a + b)
  | PosInf, NegInf | NegInf, PosInf => NaN
  | PosInf, _ | _, PosInf => PosInf
  | NegInf, _ | _, NegInf => NegInf
  end.

Definition sub (x y : number) : number := add x (neg y).

Definition mul (x y : number) : number :=
  match x, y with
  | NaN, _ | _, NaN => NaN
  | Fin a, Fin b => Fin (a * b)
  | Fin a, PosInf | PosInf, Fin a => inf_of_sign (sgn a)
  | Fin a, NegInf | NegInf, Fin a => inf_of_sign (- sgn a)
  | PosInf, PosInf | NegInf, NegInf => PosInf
  | PosInf, NegInf | NegInf, PosInf => NegInf
  end.

(** Division: a finite value over zero is an infinity of the sign of the
    numerator, [0/0] is [NaN] (the zero of the model is the positive zero). *)
Definition div (x y : number) : number :=
  match x, y with
  | NaN, _ | _, NaN => NaN
  | Fin a, Fin b => if Qeq_bool b 0 then inf_of_sign (sgn a) else Fin (a / b)
  | Fin _, (PosInf | NegInf) => Fin 0
  | PosInf, Fin b => if (sgn b <? 0)%Z then NegInf else PosInf
  | NegInf, Fin b => if (sgn b <? 0)%Z then PosInf else NegInf
  | (PosInf | NegInf), (PosInf | NegInf) => NaN
  end.

Definition ltb (x y : number) : bool :=
  match x, y with
  | NaN, _ | _, NaN => false
  | Fin a, Fin b => negb (Qle_bool b a)
  | NegInf, (Fin _ | PosInf) => true
  | Fin _, PosInf => true
  | _, _ => false
  end.

Definition leb (x y : number) : bool :=
  match x, y with
  | NaN, _ | _, NaN => false
  | Fin a, Fin b => Qle_bool a b
  | NegInf, _ => true
  | _, PosInf => true
  | _, _ => false
  end.

Definition gtb (x y : number) : bool := ltb y x.
Definition geb (x y : number) : bool := leb y x.

(** [x === y] on numbers. *)
Definition seq (x y : number) : bool :=
  match x, y with
  | Fin a, Fin b => Qeq_bool a b
  | PosInf, PosInf | NegInf, NegInf => true
  | _, _ => false
  end.

(** Truthiness of a number: everything but [0] and [NaN]. *)
Definition truthy (x : number) : bool :=
  match x with
  | Fin q => negb (Qeq_bool q 0)
  | NaN => false
  | _ => true
  end.

Definition isFinite (x : number) : bool :=
  match x with Fin _ => true | _ => false end.

Definition isNaN (x : number) : bool :=
  match x with NaN => true | _ => false end.

Definition abs (x : number) : number :=
  match x with
  | Fin q => Fin (Qabs q)
  | PosInf | NegInf => PosInf
  | NaN => NaN
  end.

Definition max (x y : number) : number :=
  match x, y with
  | NaN, _ | _, NaN => NaN
  | _, _ => if ltb x y then y else x
  end.

Definition min (x y : number) : number :=
  match x, y with
  | NaN, _ | _, NaN => NaN
  | _, _ => if ltb y x then y else x
  end.

(** [Math.round]: the nearest integer, halves going up. *)
Definition round (x : number) : number :=
  match x with
  | Fin q => of_Z (Qfloor (q + (1 # 2)))
  | _ => x
  end.

(** [Math.floor]. *)
Definition floor (x : number) : number :=
  match x with
  | Fin q => of_Z (Qfloor q)
  | _ => x
  end.

(** [Math.pow(10, e)] for an integer exponent. *)
Definition pow10 (e : Z) : number := Fin (Qpower (10 # 1) e).

(** [o || d] where [o] is a possibly undefined number. *)
Definition or_else (o : option number) (d : number) : number :=
  match o with
  | Some x => if truthy x then x else d
  | None => d
  end.

(** [Number(ethers.formatUnits(v, decimals))], for [decimals >= 0]. *)
Definition formatUnits (v : Z) (decimals : Z) : number :=
  Fin (inject_Z v / inject_Z (10 ^ decimals)).

(** Equality of the denoted values (rationals up to [Qeq]). *)
Definition eqv (x y : number) : Prop :=
  match x, y with
  | Fin a, Fin b => Qeq a b
  | PosInf, PosInf | NegInf, NegInf | NaN, NaN => True
  | _, _ => False
  end.

End JS.

Declare Scope js_scope.
Delimit Scope js_scope with js.
Bind Scope js_scope with JS.number.
Notation "x + y" := (JS.add x y) : js_scope.
Notation "x - y" := (JS.sub x y) : js_scope.
Notation "x * y" := (JS.mul x y) : js_scope.
Notation "x / y" := (JS.div x y) : js_scope.
Notation "x <? y" := (JS.ltb x y) : js_scope.
Notation "x <=? y" := (JS.leb x y) : js_scope.
Notation "x >? y" := (JS.gtb x y) : js_scope.
Notation "x >=? y" := (JS.geb x y) : js_scope.
Notation "x === y" := (JS.seq x y) (at level 70, no associativity) : js_scope.
Notation "o |? d" := (JS.or_else o d) (at level 45, left associativity) : js_scope.
Coercion JS.of_Z : Z >-> JS.number.

(** [String.prototype.toLowerCase] on ASCII text (addresses and symbols). *)
Definition lower_ascii (c : ascii) : ascii :=
  let n := nat_of_ascii c in
  if ((65 <=? n) && (n <=? 90))%nat then ascii_of_nat (n + 32) else c.

Fixpoint toLowerCase (s : string) : string :=
  match s with
  | EmptyString => EmptyString
  | String c r => String (lower_ascii c) (toLowerCase r)
  end.

Definition upper_ascii (c : ascii) : ascii :=
  let n := nat_of_ascii c in
  if ((97 <=? n) && (n <=? 122))%nat then ascii_of_nat (n - 32) else c.

Fixpoint toUpperCase (s : string) : string :=
  match s with
  | EmptyString => EmptyString
  | String c r => String (upper_ascii c) (toUpperCase r)
  end.


(** ** Constants of [config/constants.js]

    The module is not part of the sources at hand; the code only uses the
    token addresses of [CONTRACTS] and the default wrapper price, which are
    taken as parameters. *)

Class Constants : Type := {
  WBNB : string;
  USDC : string;
  USDT : string;
  BUSD : string;
  DAI : string;
  CAKE : string;
  DEFAULT_PRICES_BNB : JS.number;
}.

(** ** Shapes of the objects that travel through the services *)

Inductive pool_type : Type := V2 | V3.

Inductive liquidity_status : Type :=
| ACTIVE | WARNING_LIQUIDITY | LOW_LIQUIDITY | EMPTY | RUGGED | UNKNOWN.

Global Instance pool_type_eq_dec : EqDecision pool_type.
Proof. solve_decision. Defined.

Global Instance liquidity_status_eq_dec : EqDecision liquidity_status.
Proof. solve_decision. Defined.

(** [{ address, symbol, name, decimals }] of a pool side. *)
Record Token : Type := {
  address : string;
  symbol : string;
  name : string;
  decimals : Z;
}.

(** The [price] object as [PriceService.calculatePoolPrices] reads it. *)
Record PriceFields : Type := {
  token0Price : option JS.number;
  token1Price : option JS.number;
  ratio : option JS.number;
}.

(** A pool as [PriceService] reads it: [type], the two tokens, [price],
    [liquidity.usd] and [liquidity.eth]. *)
Record Pool : Type := {
  pool_address : string;
  pool_type_of : pool_type;
  token0 : Token;
  token1 : Token;
  price : option PriceFields;
  liquidity_usd : option JS.number;
  liquidity_eth : option JS.number;
}.

(** A number read from a possibly missing property and used in arithmetic or
    in a comparison: [undefined] behaves as [NaN] there. *)
Definition toNumber (o : option JS.number) : JS.number := default JS.NaN o.

(** [a || b] between two possibly undefined numbers. *)
Definition or_undefined (a b : option JS.number) : option JS.number :=
  match a with
  | Some x => if JS.truthy x then Some x else b
  | None => b
  end.

(** * services/PriceService.js *)

Module PriceService.
Section WithConstants.
Context {K : Constants}.

Record t : Type := {
  basePrices : gmap string JS.number;
  bnbPriceUSD : JS.number;
  lastPriceUpdate : Z;
  priceUpdateInterval : Z;
  fetchLock : bool;
}.

(** [constructor], at clock reading [now]. *)
Definition new (now : Z) : t := {|
  basePrices :=
    <[toLowerCase CAKE := JS.lit 5 2]>
    (<[toLowerCase USDT := JS.of_Z 1]>
    (<[toLowerCase DAI := JS.of_Z 1]>
    (<[toLowerCase BUSD := JS.of_Z 1]>
    (<[toLowerCase USDC := JS.of_Z 1]>
    (<[toLowerCase WBNB := DEFAULT_PRICES_BNB]> ∅)))));
  bnbPriceUSD := DEFAULT_PRICES_BNB;
  lastPriceUpdate := now;
  priceUpdateInterval := 60000;
  fetchLock := false;
|}.

Definition getBNBPrice (ps : t) : JS.number := bnbPriceUSD ps.

Definition arePricesStale (ps : t) (now : Z) : bool :=
  let STALE_THRESHOLD := 30000 in
  STALE_THRESHOLD <? now - lastPriceUpdate ps.

(** [calculateSqrtPriceToPrice]: BigInt arithmetic, then one Number division. *)
Definition calculateSqrtPriceToPrice (sqrtPriceX96 decimals0 decimals1 : Z) : JS.number :=
  if sqrtPriceX96 =? 0 then JS.of_Z 0
  else
    let Q96 := 2 ^ 96 in
    let PRECISION := 10 ^ 18 in
    let sqrtPriceSquared := sqrtPriceX96 * sqrtPriceX96 in
    let q96Squared := Q96 * Q96 in
    let decimalDiff := decimals0 - decimals1 in
    let priceScaled :=
      if 0 <=? decimalDiff then
        let decimalMultiplier := 10 ^ decimalDiff in
        (sqrtPriceSquared * PRECISION * decimalMultiplier) ÷ q96Squared
      else
        let decimalDivisor := 10 ^ (- decimalDiff) in
        (sqrtPriceSquared * PRECISION) ÷ (q96Squared * decimalDivisor) in
    (JS.of_Z priceScaled / JS.of_Z PRECISION)%js.

(** *** [fetchTokenPricesFromChain]

    The aggregated call returns four sub-results.  A pool reading holds the
    two [success] flags of a pool and what the decoders give; [None] means
    that decoding throws. *)
Record PoolReading : Type := {
  slot0_success : bool;
  token0_success : bool;
  slot0_sqrtPriceX96 : option Z;
  token0_address : option string;
}.

(** Outcome of [provider.executeWithRetry]: it throws, or it returns the
    readings of the WBNB/USDT pool and of the CAKE/WBNB pool. *)
Inductive MulticallOutcome : Type :=
| CallFailed
| CallReturned (wbnb_usdt cake_wbnb : PoolReading).

(** The locals [bnbPrice] and [cakePrice]. *)
Record Fetched : Type := {
  bnb : JS.number;
  cake : JS.number;
}.

(** The first block of the inner [try]: [Some] new [bnbPrice], or [None]
    when a decoder throws. *)
Definition decode_bnb (r : PoolReading) (bnbPrice : JS.number) : option JS.number :=
  if slot0_success r && token0_success r then
    sqrtPriceX96 ← slot0_sqrtPriceX96 r;
    tok0 ← token0_address r;
    let price := calculateSqrtPriceToPrice sqrtPriceX96 18 18 in
    let usdtAddress := toLowerCase USDT in
    Some (if String.eqb (toLowerCase tok0) usdtAddress then (JS.of_Z 1 / price)%js else price)
  else Some bnbPrice.

Definition decode_cake (r : PoolReading) (bnbPrice cakePrice : JS.number) : option JS.number :=
  if slot0_success r && token0_success r && (bnbPrice >? JS.of_Z 0)%js then
    sqrtPriceX96 ← slot0_sqrtPriceX96 r;
    tok0 ← token0_address r;
    let priceInBNB := calculateSqrtPriceToPrice sqrtPriceX96 18 18 in
    let cakeAddress := toLowerCase CAKE in
    let cakePriceInBNB :=
      if String.eqb (toLowerCase tok0) cakeAddress then priceInBNB
      else (JS.of_Z 1 / priceInBNB)%js in
    Some (cakePriceInBNB * bnbPrice)%js
  else Some cakePrice.

(** The inner [try ... catch]: the locals after it.  An exception leaves the
    locals as they were when it was thrown. *)
Definition decode_prices (out : MulticallOutcome) (init : Fetched) : Fetched :=
  match out with
  | CallFailed => init
  | CallReturned r1 r2 =>
      match decode_bnb r1 (bnb init) with
      | None => init
      | Some bnbPrice =>
          match decode_cake r2 bnbPrice (cake init) with
          | None => {| bnb := bnbPrice; cake := cake init |}
          | Some cakePrice => {| bnb := bnbPrice; cake := cakePrice |}
          end
      end
  end.

Definition bnb_in_band (bnbPrice : JS.number) : bool :=
  JS.truthy bnbPrice && (bnbPrice >? JS.of_Z 0)%js && JS.isFinite bnbPrice
  && (bnbPrice >? JS.of_Z 100)%js && (bnbPrice <? JS.of_Z 2000)%js.

Definition cake_in_band (cakePrice : JS.number) : bool :=
  JS.truthy cakePrice && (cakePrice >? JS.of_Z 0)%js && JS.isFinite cakePrice
  && (cakePrice >? JS.lit 1 10)%js && (cakePrice <? JS.of_Z 100)%js.

(** The synchronous prefix, up to the [await]: either the call returns the
    cached prices at once, or it takes the lock and reads the locals. *)
Inductive FetchStart : Type :=
| ReturnCached (result : Fetched)
| Suspended (ps : t) (locals : Fetched).

Definition cached_prices (ps : t) : Fetched :=
  {| bnb := bnbPriceUSD ps;
     cake := toNumber (basePrices ps !! toLowerCase CAKE) |}.

Definition fetch_begin (ps : t) (now : Z) : FetchStart :=
  if now - lastPriceUpdate ps <? priceUpdateInterval ps then ReturnCached (cached_prices ps)
  else if fetchLock ps then ReturnCached (cached_prices ps)
  else
    let ps1 := {| basePrices := basePrices ps; bnbPriceUSD := bnbPriceUSD ps;
                  lastPriceUpdate := lastPriceUpdate ps;
                  priceUpdateInterval := priceUpdateInterval ps;
                  fetchLock := true |} in
    Suspended ps1
      {| bnb := bnbPriceUSD ps;
         cake := (basePrices ps !! toLowerCase CAKE |? JS.lit 5 2)%js |}.

(** The continuation after the [await], run on the state [ps] found at that
    moment, with the clock reading [now] taken at the start of the call. *)
Definition fetch_finish (ps : t) (now : Z) (locals : Fetched) (out : MulticallOutcome)
  : t * Fetched :=
  let f := decode_prices out locals in
  let bnbPrice := bnb f in
  let cakePrice := cake f in
  let '(bnbUSD, prices1) :=
    if bnb_in_band bnbPrice
    then (bnbPrice, <[toLowerCase WBNB := bnbPrice]> (basePrices ps))
    else (bnbPriceUSD ps, basePrices ps) in
  let prices2 :=
    if cake_in_band cakePrice then <[toLowerCase CAKE := cakePrice]> prices1 else prices1 in
  ({| basePrices := prices2; bnbPriceUSD := bnbUSD; lastPriceUpdate := now;
      priceUpdateInterval := priceUpdateInterval ps; fetchLock := false |},
   {| bnb := bnbPrice; cake := cakePrice |}).

(** A whole call when nothing else runs during the [await]. *)
Definition fetchTokenPricesFromChain (ps : t) (now : Z) (out : MulticallOutcome)
  : t * Fetched :=
  match fetch_begin ps now with
  | ReturnCached r => (ps, r)
  | Suspended ps1 locals => fetch_finish ps1 now locals out
  end.

Definition getTokenSymbol (addr : string) : string :=
  let a := toLowerCase addr in
  if String.eqb a (toLowerCase WBNB) then "WBNB"
  else if String.eqb a (toLowerCase USDC) then "USDC"
  else if String.eqb a (toLowerCase USDT) then "USDT"
  else if String.eqb a (toLowerCase DAI) then "DAI"
  else if String.eqb a (toLowerCase BUSD) then "BUSD"
  else if String.eqb a (toLowerCase CAKE) then "CAKE"
  else "UNKNOWN".

Record TokenPrices : Type := {
  priceInPairToken : JS.number;
  priceInBNB : JS.number;
  priceInUSD : JS.number;
  calculationMethod : string;
}.

(** [calculateTokenPrices]; [poolPrice] may be [undefined], which the
    arithmetic and the later comparisons treat as [NaN]. *)
Definition calculateTokenPrices (ps : t) (pairTokenAddress : string)
    (poolPrice : option JS.number) : TokenPrices :=
  let pairTokenPriceUSD := basePrices ps !! toLowerCase pairTokenAddress in
  let p := toNumber poolPrice in
  if String.eqb (toLowerCase pairTokenAddress) (toLowerCase WBNB) then
    {| priceInPairToken := p; priceInBNB := p;
       priceInUSD := (p * bnbPriceUSD ps)%js; calculationMethod := "direct-bnb" |}
  else if match pairTokenPriceUSD with Some x => (x === JS.of_Z 1)%js | None => false end then
    {| priceInPairToken := p; priceInUSD := p;
       priceInBNB := (p / bnbPriceUSD ps)%js; calculationMethod := "direct-stable" |}
  else match pairTokenPriceUSD with
  | Some x =>
      if JS.truthy x then
        let usd := (p * x)%js in
        {| priceInPairToken := p; priceInUSD := usd;
           priceInBNB := (usd / bnbPriceUSD ps)%js; calculationMethod := "calculated" |}
      else
        {| priceInPairToken := p; priceInBNB := JS.of_Z 0; priceInUSD := JS.of_Z 0;
           calculationMethod := "unavailable" |}
  | None =>
      {| priceInPairToken := p; priceInBNB := JS.of_Z 0; priceInUSD := JS.of_Z 0;
         calculationMethod := "unavailable" |}
  end.

Record PoolPrices : Type := {
  tokenSymbol : string;
  pairTokenSymbol : string;
  pp_priceInPairToken : JS.number;
  pp_priceInBNB : JS.number;
  pp_priceInUSD : JS.number;
  pp_calculationMethod : string;
}.

(** [calculatePoolPrices] (the [displayPrice] text is left out). *)
Definition calculatePoolPrices (ps : t) (pool : Pool) (targetTokenAddress : string)
  : PoolPrices :=
  let isToken0 :=
    String.eqb (toLowerCase (address (token0 pool))) (toLowerCase targetTokenAddress) in
  let targetToken := if isToken0 then token0 pool else token1 pool in
  let pairToken := if isToken0 then token1 pool else token0 pool in
  let side (pf : PriceFields) := if isToken0 then token1Price pf else token0Price pf in
  let priceRatio : option JS.number :=
    match price pool with
    | Some pf =>
        match pool_type_of pool with
        | V3 => side pf
        | V2 => or_undefined (ratio pf) (side pf)
        end
    | None => Some (JS.of_Z 0)
    end in
  let prices := calculateTokenPrices ps (address pairToken) priceRatio in
  {| tokenSymbol := symbol targetToken;
     pairTokenSymbol := symbol pairToken;
     pp_priceInPairToken := priceInPairToken prices;
     pp_priceInBNB := priceInBNB prices;
     pp_priceInUSD := priceInUSD prices;
     pp_calculationMethod := calculationMethod prices |}.

(** *** [calculateAggregatePrice] *)

Record PairEntry : Type := {
  poolAddress : string;
  pe_price : JS.number;
  priceUSD : JS.number;
  priceBNB : JS.number;
}.

(** An element of [poolsWithPrices]: [{ ...poolPrices, liquidityUSD, liquidityBNB }]. *)
Record PoolWithPrices : Type := {
  pw_prices : PoolPrices;
  liquidityUSD : JS.number;
  liquidityBNB : JS.number;
}.

Record AggregatePrices : Type := {
  avgPriceUSD : JS.number;
  avgPriceBNB : JS.number;
  minPriceUSD : JS.number;
  maxPriceUSD : JS.number;
  minPriceBNB : JS.number;
  maxPriceBNB : JS.number;
  pricesByPair : gmap string (list PairEntry);
}.

Definition initial_prices : AggregatePrices := {|
  avgPriceUSD := JS.of_Z 0; avgPriceBNB := JS.of_Z 0;
  minPriceUSD := JS.PosInf; maxPriceUSD := JS.of_Z 0;
  minPriceBNB := JS.PosInf; maxPriceBNB := JS.of_Z 0;
  pricesByPair := ∅;
|}.

Definition with_liquidity (ps : t) (tokenAddress : string) (pool : Pool) : PoolWithPrices :=
  {| pw_prices := calculatePoolPrices ps pool tokenAddress;
     liquidityUSD := (liquidity_usd pool |? JS.of_Z 0)%js;
     liquidityBNB := (liquidity_eth pool |? JS.of_Z 0)%js |}.

(** One iteration of the first loop, on the accumulated [prices] object and
    [poolsWithPrices] array. *)
Definition first_pass_step (ps : t) (tokenAddress : string)
    (acc : AggregatePrices * list PoolWithPrices) (pool : Pool)
  : AggregatePrices * list PoolWithPrices :=
  let '(prices, poolsWithPrices) := acc in
  let pw := with_liquidity ps tokenAddress pool in
  let poolPrices := pw_prices pw in
  let pairKey := pairTokenSymbol poolPrices in
  let entry := {| poolAddress := pool_address pool;
                  pe_price := pp_priceInPairToken poolPrices;
                  priceUSD := pp_priceInUSD poolPrices;
                  priceBNB := pp_priceInBNB poolPrices |} in
  let byPair := <[pairKey := default [] (pricesByPair prices !! pairKey) ++ [entry]]>
                  (pricesByPair prices) in
  let usd := pp_priceInUSD poolPrices in
  let bnbp := pp_priceInBNB poolPrices in
  let '(minU, maxU) :=
    if (usd >? JS.of_Z 0)%js
    then (JS.min (minPriceUSD prices) usd, JS.max (maxPriceUSD prices) usd)
    else (minPriceUSD prices, maxPriceUSD prices) in
  let '(minB, maxB) :=
    if (bnbp >? JS.of_Z 0)%js
    then (JS.min (minPriceBNB prices) bnbp, JS.max (maxPriceBNB prices) bnbp)
    else (minPriceBNB prices, maxPriceBNB prices) in
  ({| avgPriceUSD := avgPriceUSD prices; avgPriceBNB := avgPriceBNB prices;
      minPriceUSD := minU; maxPriceUSD := maxU;
      minPriceBNB := minB; maxPriceBNB := maxB;
      pricesByPair := byPair |},
   poolsWithPrices ++ [pw]).

(** [xs.sort((a, b) => a - b)] on numbers that are all positive. *)
Definition sort_ascending (xs : list JS.number) : list JS.number :=
  merge_sort (λ a b, Is_true (a <=? b)%js) xs.

(** [xs.length > 0 ? xs[Math.floor(xs.length / 2)] : 0] on the sorted array. *)
Definition median_of (sorted : list JS.number) : JS.number :=
  nth (length sorted / 2)%nat sorted (JS.of_Z 0).

Definition medianUSD_of (poolsWithPrices : list PoolWithPrices) : JS.number :=
  median_of (sort_ascending
    (map (λ p, pp_priceInUSD (pw_prices p))
       (List.filter (λ p, (pp_priceInUSD (pw_prices p) >? JS.of_Z 0)%js) poolsWithPrices))).

Definition medianBNB_of (poolsWithPrices : list PoolWithPrices) : JS.number :=
  median_of (sort_ascending
    (map (λ p, pp_priceInBNB (pw_prices p))
       (List.filter (λ p, (pp_priceInBNB (pw_prices p) >? JS.of_Z 0)%js) poolsWithPrices))).

(** The four running totals of the second loop. *)
Record Totals : Type := {
  totalWeightedUSD : JS.number;
  totalWeightedBNB : JS.number;
  totalLiquidityUSD : JS.number;
  totalLiquidityBNB : JS.number;
}.

Definition second_pass_step (medianUSD medianBNB : JS.number) (acc : Totals)
    (pool : PoolWithPrices) : Totals :=
  let usd := pp_priceInUSD (pw_prices pool) in
  let bnbp := pp_priceInBNB (pw_prices pool) in
  let '(wU, lU) :=
    if (usd >? JS.of_Z 0)%js && (liquidityUSD pool >? JS.of_Z 0)%js then
      if (medianUSD === JS.of_Z 0)%js
         || ((usd >=? medianUSD * JS.lit 1 10)%js && (usd <=? medianUSD * JS.of_Z 10)%js)
      then ((totalWeightedUSD acc + usd * liquidityUSD pool)%js,
            (totalLiquidityUSD acc + liquidityUSD pool)%js)
      else (totalWeightedUSD acc, totalLiquidityUSD acc)
    else (totalWeightedUSD acc, totalLiquidityUSD acc) in
  let '(wB, lB) :=
    if (bnbp >? JS.of_Z 0)%js && (liquidityBNB pool >? JS.of_Z 0)%js then
      if (medianBNB === JS.of_Z 0)%js
         || ((bnbp >=? medianBNB * JS.lit 1 10)%js && (bnbp <=? medianBNB * JS.of_Z 10)%js)
      then ((totalWeightedBNB acc + bnbp * liquidityBNB pool)%js,
            (totalLiquidityBNB acc + liquidityBNB pool)%js)
      else (totalWeightedBNB acc, totalLiquidityBNB acc)
    else (totalWeightedBNB acc, totalLiquidityBNB acc) in
  {| totalWeightedUSD := wU; totalWeightedBNB := wB;
     totalLiquidityUSD := lU; totalLiquidityBNB := lB |}.

Definition zero_totals : Totals := {|
  totalWeightedUSD := JS.of_Z 0; totalWeightedBNB := JS.of_Z 0;
  totalLiquidityUSD := JS.of_Z 0; totalLiquidityBNB := JS.of_Z 0;
|}.

Definition calculateAggregatePrice (ps : t) (pools : list Pool) (tokenAddress : string)
  : AggregatePrices :=
  let '(prices, poolsWithPrices) :=
    fold_left (first_pass_step ps tokenAddress) pools (initial_prices, []) in
  let medianUSD := medianUSD_of poolsWithPrices in
  let medianBNB := medianBNB_of poolsWithPrices in
  let totals := fold_left (second_pass_step medianUSD medianBNB) poolsWithPrices zero_totals in
  {| avgPriceUSD :=
       if (totalLiquidityUSD totals >? JS.of_Z 0)%js
       then (totalWeightedUSD totals / totalLiquidityUSD totals)%js
       else avgPriceUSD prices;
     avgPriceBNB :=
       if (totalLiquidityBNB totals >? JS.of_Z 0)%js
       then (totalWeightedBNB totals / totalLiquidityBNB totals)%js
       else avgPriceBNB prices;
     minPriceUSD :=
       if (minPriceUSD prices === JS.PosInf)%js then JS.of_Z 0 else minPriceUSD prices;
     maxPriceUSD := maxPriceUSD prices;
     minPriceBNB :=
       if (minPriceBNB prices === JS.PosInf)%js then JS.of_Z 0 else minPriceBNB prices;
     maxPriceBNB := maxPriceBNB prices;
     pricesByPair := pricesByPair prices |}.

End WithConstants.
End PriceService.

(** * services/PoolAnalyzer.js *)

Module PoolAnalyzer.
Section WithConstants.
Context {K : Constants}.

(** ** What the batched reads return *)

(** An element of [batchGetV2PoolData]'s result. *)
Record V2PoolData : Type := {
  v2_address : string;
  v2_token0 : string;
  v2_token1 : string;
  reserve0 : Z;
  reserve1 : Z;
}.

Record Slot0 : Type := {
  sqrtPriceX96 : Z;
  tick : Z;
}.

(** An element of [batchGetV3PoolData]'s result, with the balances that
    [batchFetchPoolData] attaches; [est_token0Amount] and [est_token1Amount]
    stand for the optional [token0Amount]/[token1Amount] strings. *)
Record V3PoolData : Type := {
  v3_address : string;
  v3_token0 : string;
  v3_token1 : string;
  v3_fee : JS.number;
  v3_liquidity : Z;
  slot0 : option Slot0;
  actualBalance0 : option Z;
  actualBalance1 : option Z;
  est_token0Amount : option JS.number;
  est_token1Amount : option JS.number;
}.

Inductive PoolData : Type :=
| DataV2 (d : V2PoolData)
| DataV3 (d : V3PoolData).

(** A discovered pool (an element of [findAllPoolsForToken]'s result). *)
Record PoolInfo : Type := {
  info_address : string;
  info_type : pool_type;
  info_protocol : string;
  info_fee : option JS.number;
}.

(** A value of the [tokenInfo] dictionary; the fallback object has no
    [address]. *)
Record TokenInfo : Type := {
  ti_address : option string;
  ti_symbol : string;
  ti_name : string;
  ti_decimals : Z;
}.

Definition unknown_token : TokenInfo :=
  {| ti_address := None; ti_symbol := "UNKNOWN"; ti_name := "Unknown"; ti_decimals := 18 |}.

(** ** Enriched pools *)

Record Liquidity : Type := {
  raw : Z;
  token0Amount : JS.number;
  token1Amount : JS.number;
  totalValueUSD : JS.number;
  totalValueBNB : JS.number;
  status : liquidity_status;
}.

Record EnrichedPool : Type := {
  e_address : string;
  e_type : pool_type;
  e_protocol : string;
  e_token0 : Token;
  e_token1 : Token;
  e_reserves : option (Z * Z);
  e_fee : JS.number;
  e_feePercent : JS.number;
  e_sqrtPriceX96 : option Z;
  e_tick : option Z;
  isRugged : bool;
  rugReason : option string;
  liquidity : Liquidity;
}.

(** [basePrices[info.address?.toLowerCase() || ''] || 0] *)
Definition known_price (ps : PriceService.t) (info : TokenInfo) : JS.number :=
  let addr := default "" (toLowerCase <$> ti_address info) in
  (PriceService.basePrices ps !! addr |? JS.of_Z 0)%js.

(** [calculatePoolValue] *)
Definition calculatePoolValue (ps : PriceService.t) (reserve0 reserve1 : JS.number)
    (token0Info token1Info : TokenInfo) : JS.number * JS.number :=
  let bnbPrice := PriceService.getBNBPrice ps in
  let token0Price := known_price ps token0Info in
  let token1Price := known_price ps token1Info in
  let totalValueUSD :=
    if (token0Price >? JS.of_Z 0)%js && (token1Price >? JS.of_Z 0)%js then
      (reserve0 * token0Price + reserve1 * token1Price)%js
    else if (token0Price >? JS.of_Z 0)%js then
      let token0Value := (reserve0 * token0Price)%js in
      let derivedToken1Price :=
        if (reserve0 >? JS.of_Z 0)%js then (reserve0 / reserve1 * token0Price)%js
        else JS.of_Z 0 in
      let token1Value := (reserve1 * derivedToken1Price)%js in
      (token0Value + token1Value)%js
    else if (token1Price >? JS.of_Z 0)%js then
      let token1Value := (reserve1 * token1Price)%js in
      let derivedToken0Price :=
        if (reserve1 >? JS.of_Z 0)%js then (reserve1 / reserve0 * token1Price)%js
        else JS.of_Z 0 in
      let token0Value := (reserve0 * derivedToken0Price)%js in
      (token0Value + token1Value)%js
    else JS.of_Z 0 in
  let totalValueBNB :=
    if (bnbPrice >? JS.of_Z 0)%js then (totalValueUSD / bnbPrice)%js else JS.of_Z 0 in
  (totalValueUSD, totalValueBNB).

Record V3Value : Type := {
  v_token0Amount : JS.number;
  v_token1Amount : JS.number;
  v_totalValueUSD : JS.number;
  v_totalValueBNB : JS.number;
}.

(** [Number(sqrtPriceX96) / (2 ** 96)] *)
Definition sqrtPrice_of (sqrtPriceX96 : Z) : JS.number :=
  (JS.of_Z sqrtPriceX96 / JS.of_Z (2 ^ 96))%js.

(** [calculateV3PoolValue] *)
Definition calculateV3PoolValue (ps : PriceService.t) (poolData : V3PoolData)
    (token0Info token1Info : TokenInfo) : V3Value :=
  let bnbPrice := PriceService.getBNBPrice ps in
  let token0Price := known_price ps token0Info in
  let token1Price := known_price ps token1Info in
  let sqrtPriceX96 := match slot0 poolData with Some s => sqrtPriceX96 s | None => 0 end in
  let '(token0Amount, token1Amount) :=
    match actualBalance0 poolData, actualBalance1 poolData with
    | Some b0, Some b1 =>
        (JS.formatUnits b0 (ti_decimals token0Info), JS.formatUnits b1 (ti_decimals token1Info))
    | _, _ =>
        match est_token0Amount poolData, est_token1Amount poolData with
        | Some a0, Some a1 => ((Some a0 |? JS.of_Z 0)%js, (Some a1 |? JS.of_Z 0)%js)
        | _, _ =>
            let liquidity := v3_liquidity poolData in
            if (0 <? liquidity) && (0 <? sqrtPriceX96) then
              let liquidityNum := JS.of_Z liquidity in
              let sqrtPrice := sqrtPrice_of sqrtPriceX96 in
              let a0 := (liquidityNum / (sqrtPrice * JS.of_Z (10 ^ 9)))%js in
              let a1 := (liquidityNum * sqrtPrice / JS.of_Z (10 ^ 9))%js in
              ((a0 / JS.pow10 (ti_decimals token0Info - 9))%js,
               (a1 / JS.pow10 (ti_decimals token1Info - 9))%js)
            else (JS.of_Z 0, JS.of_Z 0)
        end
    end in
  let priceRatio :=
    (sqrtPrice_of sqrtPriceX96 * sqrtPrice_of sqrtPriceX96
     * JS.pow10 (ti_decimals token0Info - ti_decimals token1Info))%js in
  let totalValueUSD :=
    if (token0Price >? JS.of_Z 0)%js && (token1Price >? JS.of_Z 0)%js then
      (token0Amount * token0Price + token1Amount * token1Price)%js
    else if (token0Price >? JS.of_Z 0)%js then
      let token0Value := (token0Amount * token0Price)%js in
      let derivedToken1Price :=
        if 0 <? sqrtPriceX96 then
          if (priceRatio >? JS.of_Z 0)%js then (token0Price / priceRatio)%js else JS.of_Z 0
        else if (token0Amount >? JS.of_Z 0)%js && (token1Amount >? JS.of_Z 0)%js then
          (token0Amount / token1Amount * token0Price)%js
        else JS.of_Z 0 in
      (token0Value + token1Amount * derivedToken1Price)%js
    else if (token1Price >? JS.of_Z 0)%js then
      let token1Value := (token1Amount * token1Price)%js in
      let derivedToken0Price :=
        if 0 <? sqrtPriceX96 then (priceRatio * token1Price)%js
        else if (token1Amount >? JS.of_Z 0)%js && (token0Amount >? JS.of_Z 0)%js then
          (token1Amount / token0Amount * token1Price)%js
        else JS.of_Z 0 in
      (token0Amount * derivedToken0Price + token1Value)%js
    else JS.of_Z 0 in
  let totalValueBNB :=
    if (bnbPrice >? JS.of_Z 0)%js then (totalValueUSD / bnbPrice)%js else JS.of_Z 0 in
  {| v_token0Amount := token0Amount; v_token1Amount := token1Amount;
     v_totalValueUSD := totalValueUSD; v_totalValueBNB := totalValueBNB |}.

(** [tokenInfo[addr?.toLowerCase()] || { symbol: 'UNKNOWN', decimals: 18, name: 'Unknown' }] *)
Definition lookup_token (tokenInfo : gmap string TokenInfo) (addr : string) : TokenInfo :=
  default unknown_token (tokenInfo !! toLowerCase addr).

(** [{ address: addr, ...info }] *)
Definition token_of (addr : string) (info : TokenInfo) : Token :=
  {| address := default addr (ti_address info);
     symbol := ti_symbol info;
     name := ti_name info;
     decimals := ti_decimals info |}.

(** The status ladder on the USD value; [empty] is the last test of it. *)
Definition status_of (totalValueUSD : JS.number) (empty : bool) : liquidity_status :=
  if (totalValueUSD >=? JS.of_Z 1000)%js then ACTIVE
  else if (totalValueUSD >=? JS.of_Z 100)%js then WARNING_LIQUIDITY
  else if empty then EMPTY
  else LOW_LIQUIDITY.

Definition MAX_TICK : Z := 887272.
Definition MIN_TICK : Z := -887272.
Definition TICK_BOUNDARY_THRESHOLD : Z := 100.

Definition isTickAtBoundary (tick : Z) : bool :=
  (MAX_TICK - TICK_BOUNDARY_THRESHOLD <=? tick) || (tick <=? MIN_TICK + TICK_BOUNDARY_THRESHOLD).

(** [enrichPoolData], V2 branch. *)
Definition enrichV2 (ps : PriceService.t) (poolData : V2PoolData) (poolInfo : PoolInfo)
    (tokenInfo : gmap string TokenInfo) (protocol : string) : EnrichedPool :=
  let token0Info := lookup_token tokenInfo (v2_token0 poolData) in
  let token1Info := lookup_token tokenInfo (v2_token1 poolData) in
  let fee := (info_fee poolInfo |? JS.of_Z 2500)%js in
  let reserve0Num := JS.formatUnits (reserve0 poolData) (ti_decimals token0Info) in
  let reserve1Num := JS.formatUnits (reserve1 poolData) (ti_decimals token1Info) in
  let '(totalValueUSD, totalValueBNB) :=
    calculatePoolValue ps reserve0Num reserve1Num token0Info token1Info in
  let status :=
    status_of totalValueUSD
      ((totalValueUSD <=? JS.of_Z 0)%js && (reserve0Num <=? JS.of_Z 0)%js
       && (reserve1Num <=? JS.of_Z 0)%js) in
  {| e_address := v2_address poolData;
     e_type := V2;
     e_protocol := protocol;
     e_token0 := token_of (v2_token0 poolData) token0Info;
     e_token1 := token_of (v2_token1 poolData) token1Info;
     e_reserves := Some (reserve0 poolData, reserve1 poolData);
     e_fee := fee;
     e_feePercent := (fee / JS.of_Z 10000)%js;
     e_sqrtPriceX96 := None;
     e_tick := None;
     isRugged := false;
     rugReason := None;
     liquidity := {| raw := reserve0 poolData;
                     token0Amount := reserve0Num;
                     token1Amount := reserve1Num;
                     totalValueUSD := totalValueUSD;
                     totalValueBNB := totalValueBNB;
                     status := status |} |}.

(** [enrichPoolData], V3 branch. *)
Definition enrichV3 (ps : PriceService.t) (poolData : V3PoolData) (poolInfo : PoolInfo)
    (tokenInfo : gmap string TokenInfo) (protocol : string) : EnrichedPool :=
  let token0Info := lookup_token tokenInfo (v3_token0 poolData) in
  let token1Info := lookup_token tokenInfo (v3_token1 poolData) in
  let fee := (Some (Some (v3_fee poolData) |? toNumber (info_fee poolInfo)) |? JS.of_Z 2500)%js in
  let sqrtP := match slot0 poolData with Some s => sqrtPriceX96 s | None => 0 end in
  let tick := match slot0 poolData with Some s => tick s | None => 0 end in
  let liquidityRaw := v3_liquidity poolData in
  let isZeroLiquidity := liquidityRaw =? 0 in
  let base (liq : Liquidity) (rugged : bool) (reason : option string) :=
    {| e_address := v3_address poolData;
       e_type := V3;
       e_protocol := protocol;
       e_token0 := token_of (v3_token0 poolData) token0Info;
       e_token1 := token_of (v3_token1 poolData) token1Info;
       e_reserves := None;
       e_fee := fee;
       e_feePercent := (fee / JS.of_Z 10000)%js;
       e_sqrtPriceX96 := Some sqrtP;
       e_tick := Some tick;
       isRugged := rugged;
       rugReason := reason;
       liquidity := liq |} in
  if isTickAtBoundary tick || isZeroLiquidity then
    base {| raw := 0; token0Amount := JS.of_Z 0; token1Amount := JS.of_Z 0;
            totalValueUSD := JS.of_Z 0; totalValueBNB := JS.of_Z 0; status := RUGGED |}
         true
         (Some (if isZeroLiquidity then "Zero liquidity" else "Tick at boundary (tick)"))
  else
    let v := calculateV3PoolValue ps poolData token0Info token1Info in
    base {| raw := liquidityRaw;
            token0Amount := v_token0Amount v;
            token1Amount := v_token1Amount v;
            totalValueUSD := v_totalValueUSD v;
            totalValueBNB := v_totalValueBNB v;
            status := status_of (v_totalValueUSD v) (liquidityRaw <=? 0) |}
         false None.

Definition enrichPoolData (ps : PriceService.t) (poolData : PoolData) (poolInfo : PoolInfo)
    (tokenInfo : gmap string TokenInfo) (protocol : string) : EnrichedPool :=
  match poolData with
  | DataV2 d => enrichV2 ps d poolInfo tokenInfo protocol
  | DataV3 d => enrichV3 ps d poolInfo tokenInfo protocol
  end.

(** The filter at the end of [discoverAllPools]; [None] is a [null] result. *)
Definition hasLiquidity (poolData : EnrichedPool) : bool :=
  negb (raw (liquidity poolData) =? 0)
  || match e_reserves poolData with
     | Some (r0, r1) => negb (r0 =? 0) || negb (r1 =? 0)
     | None => false
     end
  || bool_decide (status (liquidity poolData) = ACTIVE).

Definition keep_pool (poolData : option EnrichedPool) : bool :=
  match poolData with
  | None => false
  | Some p => hasLiquidity p
  end.

Definition discovered_pools (poolDataResults : list (option EnrichedPool)) : list EnrichedPool :=
  omap id (List.filter keep_pool poolDataResults).

(** ** Formatted pools *)

Record FLiquidity : Type := {
  f_status : liquidity_status;
  usd : JS.number;
  bnb : JS.number;
  liq_token0 : option JS.number;
  liq_token1 : option JS.number;
  liq_token0Amount : option JS.number;
  liq_token1Amount : option JS.number;
  f_raw : Z;
}.

Record FPrice : Type := {
  p_token0 : JS.number;
  p_token1 : JS.number;
  p_ratio : JS.number;
  p_raw : JS.number;
  source : string;
  inPairToken : JS.number;
  inBNB : JS.number;
  inUSD : JS.number;
}.

Record FormattedPool : Type := {
  f_address : string;
  f_protocol : string;
  f_type : pool_type;
  pair : string;
  pairToken : Token;
  fee : JS.number;
  feePercent : JS.number;
  f_liquidity : FLiquidity;
  f_price : FPrice;
  f_token0 : Token;
  f_token1 : Token;
  isToken0 : bool;
  f_tick : option Z;
  f_sqrtPriceX96 : option Z;
}.

(** [token.decimals || 18] *)
Definition decimals_or_18 (tk : Token) : Z :=
  if decimals tk =? 0 then 18 else decimals tk.

(** [token.symbol || 'UNKNOWN'] *)
Definition symbol_or_unknown (tk : Token) : string :=
  if String.eqb (symbol tk) "" then "UNKNOWN" else symbol tk.

(** The three locals [token0Price], [token1Price], [priceRatio] and
    [priceSource] that the formatter derives from the protocol state. *)
Record BasePrice : Type := {
  b_token0Price : JS.number;
  b_token1Price : JS.number;
  b_priceRatio : JS.number;
  b_priceSource : string;
}.

Definition no_price : BasePrice :=
  {| b_token0Price := JS.of_Z 0; b_token1Price := JS.of_Z 0;
     b_priceRatio := JS.of_Z 0; b_priceSource := "none" |}.

Definition base_price (pool : EnrichedPool) (isToken0 : bool) : BasePrice :=
  let decimals0 := decimals_or_18 (e_token0 pool) in
  let decimals1 := decimals_or_18 (e_token1 pool) in
  match e_type pool, e_sqrtPriceX96 pool, e_reserves pool with
  | V3, Some sqrtP, _ =>
      let sqrtPriceX96Num := JS.of_Z sqrtP in
      if (sqrtPriceX96Num >? JS.of_Z 0)%js && JS.isFinite sqrtPriceX96Num then
        let Q96 := JS.of_Z (2 ^ 96) in
        let sqrtPrice := (sqrtPriceX96Num / Q96)%js in
        let rawPrice0 := (sqrtPrice * sqrtPrice)%js in
        let rawPrice :=
          if decimals0 =? decimals1 then rawPrice0
          else (rawPrice0 * JS.pow10 (decimals0 - decimals1))%js in
        let token1Price := rawPrice in
        let token0Price :=
          if (rawPrice >? JS.of_Z 0)%js then (JS.of_Z 1 / rawPrice)%js else JS.of_Z 0 in
        {| b_token0Price := token0Price; b_token1Price := token1Price;
           b_priceRatio := if isToken0 then token1Price else token0Price;
           b_priceSource := "V3-sqrtPriceX96" |}
      else no_price
  | V2, _, Some (reserve0, reserve1) =>
      if (0 <? reserve0) && (0 <? reserve1) then
        let amount0 := JS.formatUnits reserve0 decimals0 in
        let amount1 := JS.formatUnits reserve1 decimals1 in
        if (amount0 >? JS.of_Z 0)%js && (amount1 >? JS.of_Z 0)%js then
          {| b_token0Price := (amount0 / amount1)%js; b_token1Price := (amount1 / amount0)%js;
             b_priceRatio := if isToken0 then (amount1 / amount0)%js else (amount0 / amount1)%js;
             b_priceSource := "V2-reserves" |}
        else no_price
      else no_price
  | _, _, _ => no_price
  end.

(** The object [{ ...pool, price: { token0Price, token1Price, ratio } }] that
    the formatter hands to [calculatePoolPrices]. *)
Definition priced_view (pool : EnrichedPool) (b : BasePrice) : Pool :=
  {| pool_address := e_address pool;
     pool_type_of := e_type pool;
     token0 := e_token0 pool;
     token1 := e_token1 pool;
     price := Some {| token0Price := Some (b_token0Price b);
                      token1Price := Some (b_token1Price b);
                      ratio := Some (b_priceRatio b) |};
     liquidity_usd := None;
     liquidity_eth := None |}.

(** One element of [formatPoolsWithPricing] (the [display] text is left out). *)
Definition formatPool (ps : PriceService.t) (tokenAddress : string) (pool : EnrichedPool)
  : FormattedPool :=
  let isToken0 := String.eqb (toLowerCase (address (e_token0 pool))) (toLowerCase tokenAddress) in
  let pairToken := if isToken0 then e_token1 pool else e_token0 pool in
  let b := base_price pool isToken0 in
  let comprehensivePrices :=
    PriceService.calculatePoolPrices ps (priced_view pool b) tokenAddress in
  {| f_address := e_address pool;
     f_protocol := e_protocol pool;
     f_type := e_type pool;
     pair := symbol_or_unknown (e_token0 pool) +:+ "/" +:+ symbol_or_unknown (e_token1 pool);
     pairToken := pairToken;
     fee := (Some (e_fee pool) |?
               (if JS.truthy (e_feePercent pool) then e_feePercent pool * JS.of_Z 10000
                else JS.of_Z 3000))%js;
     feePercent := (Some (e_feePercent pool) |?
                      (if JS.truthy (e_fee pool) then e_fee pool / JS.of_Z 10000
                       else JS.lit 3 10))%js;
     f_liquidity :=
       {| f_status := status (liquidity pool);
          usd := (Some (totalValueUSD (liquidity pool)) |? JS.of_Z 0)%js;
          bnb := (Some (totalValueBNB (liquidity pool)) |? JS.of_Z 0)%js;
          liq_token0 := Some (token0Amount (liquidity pool));
          liq_token1 := Some (token1Amount (liquidity pool));
          liq_token0Amount := None;
          liq_token1Amount := None;
          f_raw := raw (liquidity pool) |};
     f_price :=
       {| p_token0 := b_token0Price b;
          p_token1 := b_token1Price b;
          p_ratio := b_priceRatio b;
          p_raw := b_token1Price b;
          source := b_priceSource b;
          inPairToken := PriceService.pp_priceInPairToken comprehensivePrices;
          inBNB := PriceService.pp_priceInBNB comprehensivePrices;
          inUSD := PriceService.pp_priceInUSD comprehensivePrices |};
     f_token0 := e_token0 pool;
     f_token1 := e_token1 pool;
     isToken0 := isToken0;
     f_tick := match e_type pool with V3 => e_tick pool | V2 => None end;
     f_sqrtPriceX96 := match e_type pool with V3 => e_sqrtPriceX96 pool | V2 => None end |}.

Definition formatPoolsWithPricing (ps : PriceService.t) (pools : list EnrichedPool)
    (tokenAddress : string) : list FormattedPool :=
  map (formatPool ps tokenAddress) pools.

(** A formatted pool as [calculateAggregatePrice] reads it: its [price] has
    [ratio] but neither [token0Price] nor [token1Price], and its [liquidity]
    has [usd] and [bnb] but no [eth]. *)
Definition aggregate_view (pool : FormattedPool) : Pool :=
  {| pool_address := f_address pool;
     pool_type_of := f_type pool;
     token0 := f_token0 pool;
     token1 := f_token1 pool;
     price := Some {| token0Price := None; token1Price := None;
                      ratio := Some (p_ratio (f_price pool)) |};
     liquidity_usd := Some (usd (f_liquidity pool));
     liquidity_eth := None |}.

(** ** Trade scoring *)

Inductive risk : Type := LOW | MEDIUM | HIGH | CRITICAL.

Global Instance risk_eq_dec : EqDecision risk.
Proof. solve_decision. Defined.

(** The mutable locals of [performSafetyChecks], and its result. *)
Record SafetyChecks : Type := {
  safetyScore : JS.number;
  warnings : list string;
  isUntradeable : bool;
  priceDeviation : JS.number;
  sandwichRisk : risk;
  v3InRange : bool;
}.

Definition push (w : string) (deduct : JS.number) (c : SafetyChecks) : SafetyChecks :=
  {| safetyScore := (safetyScore c - deduct)%js;
     warnings := warnings c ++ [w];
     isUntradeable := isUntradeable c;
     priceDeviation := priceDeviation c;
     sandwichRisk := sandwichRisk c;
     v3InRange := v3InRange c |}.

Definition initial_checks : SafetyChecks :=
  {| safetyScore := JS.of_Z 100; warnings := []; isUntradeable := false;
     priceDeviation := JS.of_Z 0; sandwichRisk := LOW; v3InRange := true |}.

(** 1. V3 tick range check *)
Definition check_v3_range (pool : FormattedPool) (c : SafetyChecks) : SafetyChecks :=
  match f_type pool, f_tick pool, f_sqrtPriceX96 pool with
  | V3, Some _, Some _ =>
      let liquidityRaw := f_raw (f_liquidity pool) in
      if liquidityRaw =? 0 then
        let c1 := push "V3_NO_LIQUIDITY_IN_RANGE" (JS.of_Z 50) c in
        {| safetyScore := safetyScore c1; warnings := warnings c1;
           isUntradeable := true; priceDeviation := priceDeviation c1;
           sandwichRisk := sandwichRisk c1; v3InRange := false |}
      else c
  | _, _, _ => c
  end.

(** 2. Price deviation check.  [PriceService] has no [getAggregatePrice], so
    [this.priceService.getAggregatePrice?.() || pool.price.inUSD] is the
    pool's own price. *)
Definition check_price_deviation (pool : FormattedPool) (c : SafetyChecks) : SafetyChecks :=
  let p := inUSD (f_price pool) in
  if (p >? JS.of_Z 0)%js then
    let aggregatePrice := p in
    if (aggregatePrice >? JS.of_Z 0)%js then
      let deviation := (JS.abs ((p - aggregatePrice) / aggregatePrice) * JS.of_Z 100)%js in
      let c1 := {| safetyScore := safetyScore c; warnings := warnings c;
                   isUntradeable := isUntradeable c; priceDeviation := deviation;
                   sandwichRisk := sandwichRisk c; v3InRange := v3InRange c |} in
      if (deviation >? JS.of_Z 10)%js then push "PRICE_MANIPULATION_RISK" (JS.of_Z 40) c1
      else if (deviation >? JS.of_Z 5)%js then push "PRICE_DEVIATION_HIGH" (JS.of_Z 20) c1
      else if (deviation >? JS.of_Z 2)%js then push "PRICE_DEVIATION_MODERATE" (JS.of_Z 5) c1
      else c1
    else c
  else c.

Definition set_sandwich (r : risk) (c : SafetyChecks) : SafetyChecks :=
  {| safetyScore := safetyScore c; warnings := warnings c;
     isUntradeable := isUntradeable c; priceDeviation := priceDeviation c;
     sandwichRisk := r; v3InRange := v3InRange c |}.

(** 3. Sandwich attack risk *)
Definition check_sandwich (tradeAmountUSD liquidityUSD : JS.number) (c : SafetyChecks)
  : SafetyChecks :=
  let tradeToLiquidityRatio := (tradeAmountUSD / (Some liquidityUSD |? JS.of_Z 1))%js in
  if (tradeToLiquidityRatio >? JS.lit 1 10)%js then
    push "SANDWICH_ATTACK_CRITICAL" (JS.of_Z 30) (set_sandwich CRITICAL c)
  else if (tradeToLiquidityRatio >? JS.lit 5 100)%js then
    push "SANDWICH_ATTACK_HIGH" (JS.of_Z 15) (set_sandwich HIGH c)
  else if (tradeToLiquidityRatio >? JS.lit 1 100)%js then set_sandwich MEDIUM c
  else c.

(** 4. Liquidity depth check *)
Definition check_depth (liquidityUSD : JS.number) (c : SafetyChecks) : SafetyChecks :=
  if (liquidityUSD <? JS.of_Z 1000)%js then push "EXTREMELY_LOW_LIQUIDITY" (JS.of_Z 30) c
  else if (liquidityUSD <? JS.of_Z 10000)%js then push "LOW_LIQUIDITY" (JS.of_Z 15) c
  else c.

(** [parseFloat(a || b || '0')] on two possibly missing numeric strings. *)
Definition amount_of (a b : option JS.number) : JS.number :=
  match a with
  | Some x => x
  | None => default (JS.of_Z 0) b
  end.

Definition pairTokenAmount (pool : FormattedPool) : JS.number :=
  if isToken0 pool
  then amount_of (liq_token1 (f_liquidity pool)) (liq_token1Amount (f_liquidity pool))
  else amount_of (liq_token0 (f_liquidity pool)) (liq_token0Amount (f_liquidity pool)).

Definition targetTokenAmount (pool : FormattedPool) : JS.number :=
  if isToken0 pool
  then amount_of (liq_token0 (f_liquidity pool)) (liq_token0Amount (f_liquidity pool))
  else amount_of (liq_token1 (f_liquidity pool)) (liq_token1Amount (f_liquidity pool)).

Definition pairSymbol (pool : FormattedPool) : string :=
  toUpperCase (symbol (pairToken pool)).

Definition MIN_WBNB_RESERVE : JS.number := JS.lit 1 1000.
Definition MIN_USDC_RESERVE : JS.number := JS.of_Z 10.
Definition MIN_CAKE_RESERVE : JS.number := JS.of_Z 5.
Definition MIN_OTHER_RESERVE : JS.number := JS.of_Z 10.

Definition minPairReserve (pairSymbol : string) : JS.number :=
  if String.eqb pairSymbol "WBNB" then MIN_WBNB_RESERVE
  else if String.eqb pairSymbol "USDC" || String.eqb pairSymbol "USDT"
          || String.eqb pairSymbol "BUSD" then MIN_USDC_RESERVE
  else if String.eqb pairSymbol "CAKE" then MIN_CAKE_RESERVE
  else MIN_OTHER_RESERVE.

(** 4.5 Rug pull detection *)
Definition check_rug_pull (pool : FormattedPool) (c : SafetyChecks) : SafetyChecks :=
  if (pairTokenAmount pool <? minPairReserve (pairSymbol pool))%js then
    {| safetyScore := JS.of_Z 0;
       warnings := warnings c ++ ["RUG_PULL_DETECTED"];
       isUntradeable := true;
       priceDeviation := priceDeviation c;
       sandwichRisk := sandwichRisk c;
       v3InRange := v3InRange c |}
  else c.

(** 5. Stale data check *)
Definition check_inactive (pool : FormattedPool) (c : SafetyChecks) : SafetyChecks :=
  if bool_decide (f_status (f_liquidity pool) = ACTIVE) then c
  else push "POOL_INACTIVE" (JS.of_Z 20) c.

Definition stableSymbols : list string := ["USDC"; "USDT"; "DAI"; "USDBC"; "USDC.E"].

(** 6. Pair token safety *)
Definition check_volatile_pair (pool : FormattedPool) (tradeAmountUSD : JS.number)
    (c : SafetyChecks) : SafetyChecks :=
  let isStablePair := existsb (String.eqb (pairSymbol pool)) stableSymbols in
  if (tradeAmountUSD >? JS.of_Z 10000)%js && negb isStablePair
     && negb (String.eqb (pairSymbol pool) "WBNB")
  then push "VOLATILE_PAIR_FOR_LARGE_TRADE" (JS.of_Z 10) c
  else c.

(** 7. Fee anomaly check *)
Definition check_fee (pool : FormattedPool) (c : SafetyChecks) : SafetyChecks :=
  if (fee pool >? JS.of_Z 10000)%js then push "UNUSUALLY_HIGH_FEE" (JS.of_Z 15) c else c.

(** [performSafetyChecks] *)
Definition performSafetyChecks (pool : FormattedPool)
    (tradeAmountUSD liquidityUSD bnbPrice : JS.number) : SafetyChecks :=
  let c :=
    check_fee pool
      (check_volatile_pair pool tradeAmountUSD
        (check_inactive pool
          (check_rug_pull pool
            (check_depth liquidityUSD
              (check_sandwich tradeAmountUSD liquidityUSD
                (check_price_deviation pool
                  (check_v3_range pool initial_checks))))))) in
  {| safetyScore := JS.max (JS.of_Z 0) (safetyScore c);
     warnings := warnings c;
     isUntradeable := isUntradeable c;
     priceDeviation := (JS.round (priceDeviation c * JS.of_Z 100) / JS.of_Z 100)%js;
     sandwichRisk := sandwichRisk c;
     v3InRange := v3InRange c |}.

(** [estimateSlippage] *)
Definition estimateSlippage (pool : FormattedPool) (tradeAmountUSD liquidityUSD : JS.number)
    (safetyChecks : option SafetyChecks) : JS.number :=
  if (liquidityUSD <=? JS.of_Z 0)%js then JS.of_Z 100
  else if match safetyChecks with Some c => negb (v3InRange c) | None => false end
  then JS.of_Z 50
  else
    let tradeRatio := (tradeAmountUSD / liquidityUSD)%js in
    match f_type pool with
    | V2 => (tradeRatio * JS.of_Z 50)%js
    | V3 =>
        let efficiencyFactor := JS.of_Z 5 in
        (tradeRatio / efficiencyFactor * JS.of_Z 50)%js
    end.

(** [calculateRiskLevel] *)
Definition calculateRiskLevel (liquidityRatio : JS.number) (safetyChecks : SafetyChecks)
    (tradeAmountUSD : JS.number) : risk :=
  let r0 :=
    if (liquidityRatio <? JS.of_Z 5)%js then HIGH
    else if (liquidityRatio <? JS.of_Z 20)%js then MEDIUM
    else LOW in
  let r1 :=
    if (safetyScore safetyChecks <? JS.of_Z 50)%js then CRITICAL
    else if (safetyScore safetyChecks <? JS.of_Z 70)%js && negb (bool_decide (r0 = CRITICAL))
    then HIGH
    else if (safetyScore safetyChecks <? JS.of_Z 85)%js && bool_decide (r0 = LOW)
    then MEDIUM
    else r0 in
  let r2 :=
    if bool_decide (sandwichRisk safetyChecks = CRITICAL) then CRITICAL
    else if bool_decide (sandwichRisk safetyChecks = HIGH) && negb (bool_decide (r1 = CRITICAL))
    then HIGH
    else r1 in
  if (tradeAmountUSD >? JS.of_Z 50000)%js && bool_decide (r2 = LOW) then MEDIUM else r2.

(** [classifyTradeSize] *)
Definition classifyTradeSize (amountUSD : JS.number) : string :=
  if (amountUSD <? JS.of_Z 100)%js then "MICRO"
  else if (amountUSD <? JS.of_Z 1000)%js then "SMALL"
  else if (amountUSD <? JS.of_Z 10000)%js then "MEDIUM"
  else if (amountUSD <? JS.of_Z 100000)%js then "LARGE"
  else "WHALE".

Record Costs : Type := {
  c_feePercent : JS.number;
  c_slippagePercent : JS.number;
  c_totalCostPercent : JS.number;
  c_feeCostUSD : JS.number;
  c_slippageCostUSD : JS.number;
  c_totalCostUSD : JS.number;
}.

Record Protection : Type := {
  recommendedMinOutputPercent : JS.number;
  recommendedMinOutput : JS.number;
  maxSlippageTolerance : JS.number;
}.

(** The result of [analyzePoolForTrade]; [reasons] is the array that the code
    joins into the [reason] text. *)
Record TradeAnalysis : Type := {
  score : JS.number;
  reasons : list string;
  tradeable : bool;
  riskLevel : risk;
  costs : Costs;
  liquidityRatio : JS.number;
  safety : SafetyChecks;
  protection : Protection;
}.

(** [Math.round(x * k) / k] *)
Definition round_to (k : Z) (x : JS.number) : JS.number :=
  (JS.round (x * JS.of_Z k) / JS.of_Z k)%js.

(** [analyzePoolForTrade] *)
Definition analyzePoolForTrade (pool : FormattedPool) (tradeAmountUSD bnbPrice : JS.number)
  : TradeAnalysis :=
  let liquidityUSD := (Some (usd (f_liquidity pool)) |? JS.of_Z 0)%js in
  let feePercent := ((Some (fee pool) |? JS.of_Z 3000) / JS.of_Z 1000000)%js in
  let safetyChecks := performSafetyChecks pool tradeAmountUSD liquidityUSD bnbPrice in
  let slippage0 := estimateSlippage pool tradeAmountUSD liquidityUSD (Some safetyChecks) in
  let slippagePercent :=
    if (priceDeviation safetyChecks >? JS.of_Z 5)%js
    then (slippage0 + priceDeviation safetyChecks)%js
    else slippage0 in
  let totalCostPercent := (feePercent * JS.of_Z 100 + slippagePercent)%js in
  let feeCostUSD := (tradeAmountUSD * feePercent)%js in
  let slippageCostUSD := (tradeAmountUSD * (slippagePercent / JS.of_Z 100))%js in
  let totalCostUSD := (feeCostUSD + slippageCostUSD)%js in
  let tradeable :=
    negb (isUntradeable safetyChecks)
    && (liquidityUSD >? JS.of_Z 0)%js
    && (liquidityUSD >=? tradeAmountUSD * JS.lit 1 10)%js
    && (safetyScore safetyChecks >=? JS.of_Z 30)%js in
  let liquidityRatio := (liquidityUSD / tradeAmountUSD)%js in
  let riskLevel := calculateRiskLevel liquidityRatio safetyChecks tradeAmountUSD in
  let reasons :=
    [ if (feePercent <=? JS.lit 1 10000)%js then "Ultra-low fee (0.01%)"
      else if (feePercent <=? JS.lit 5 10000)%js then "Low fee (0.05%)"
      else if (feePercent <=? JS.lit 3 1000)%js then "Standard fee (0.3%)"
      else "High fee (1%)" ]
    ++ [ if (slippagePercent <? JS.lit 1 10)%js then "Minimal slippage"
         else if (slippagePercent <? JS.lit 5 10)%js then "Low slippage"
         else if (slippagePercent <? JS.of_Z 1)%js then "Moderate slippage"
         else if (slippagePercent <? JS.of_Z 5)%js then "High slippage warning"
         else "DANGEROUS slippage" ]
    ++ (if (liquidityRatio >? JS.of_Z 100)%js then ["Deep liquidity"]
        else if (liquidityRatio >? JS.of_Z 20)%js then ["Good liquidity"]
        else if (liquidityRatio <? JS.of_Z 5)%js then ["LOW LIQUIDITY"]
        else [])
    ++ (match f_type pool with V3 => ["Concentrated"] | V2 => [] end)
    ++ warnings safetyChecks in
  let score0 :=
    JS.max (JS.of_Z 0)
      (JS.of_Z 100 - totalCostPercent * JS.of_Z 10
       + (if (liquidityRatio >? JS.of_Z 50)%js then JS.of_Z 10 else JS.of_Z 0))%js in
  let score1 := (score0 * (safetyScore safetyChecks / JS.of_Z 100))%js in
  let expectedOutput := (tradeAmountUSD / (Some (inUSD (f_price pool)) |? JS.of_Z 1))%js in
  let minOutputPercent :=
    JS.max (JS.of_Z 95) (JS.of_Z 100 - slippagePercent - JS.of_Z 1)%js in
  let recommendedMinOutput := (expectedOutput * (minOutputPercent / JS.of_Z 100))%js in
  {| score := JS.round score1;
     reasons := reasons;
     tradeable := tradeable;
     riskLevel := riskLevel;
     costs := {| c_feePercent := (feePercent * JS.of_Z 100)%js;
                 c_slippagePercent := slippagePercent;
                 c_totalCostPercent := totalCostPercent;
                 c_feeCostUSD := round_to 10000 feeCostUSD;
                 c_slippageCostUSD := round_to 10000 slippageCostUSD;
                 c_totalCostUSD := round_to 10000 totalCostUSD |};
     liquidityRatio := round_to 10 liquidityRatio;
     safety := safetyChecks;
     protection :=
       {| recommendedMinOutputPercent := minOutputPercent;
          recommendedMinOutput := round_to 1000000 recommendedMinOutput;
          maxSlippageTolerance := JS.min (slippagePercent + JS.of_Z 1)%js (JS.of_Z 10) |} |}.

(** ** Warnings *)

Record WarningItem : Type := {
  code : string;
  severity : risk;
}.

Record Warnings : Type := {
  items : list WarningItem;
  count : nat;
  hasCritical : bool;
  hasHigh : bool;
}.

(** The inner [addWarning] (message and suggestion texts are left out). *)
Definition addWarning (code : string) (severity : risk) (w : Warnings) : Warnings :=
  {| items := items w ++ [{| code := code; severity := severity |}];
     count := S (count w);
     hasCritical := hasCritical w || bool_decide (severity = CRITICAL);
     hasHigh := hasHigh w || bool_decide (severity = HIGH) |}.

(** [mapSafetyWarning]: the severity of a mapped code, [None] for [null]. *)
Definition mapSafetyWarning (code : string) : option risk :=
  if String.eqb code "V3_NO_LIQUIDITY_IN_RANGE" then Some CRITICAL
  else if String.eqb code "PRICE_MANIPULATION_RISK" then Some CRITICAL
  else if String.eqb code "PRICE_DEVIATION_HIGH" then Some HIGH
  else if String.eqb code "PRICE_DEVIATION_MODERATE" then Some LOW
  else if String.eqb code "SANDWICH_ATTACK_CRITICAL" then Some CRITICAL
  else if String.eqb code "SANDWICH_ATTACK_HIGH" then Some HIGH
  else if String.eqb code "EXTREMELY_LOW_LIQUIDITY" then Some CRITICAL
  else if String.eqb code "LOW_LIQUIDITY" then Some HIGH
  else if String.eqb code "POOL_INACTIVE" then Some HIGH
  else if String.eqb code "VOLATILE_PAIR_FOR_LARGE_TRADE" then Some MEDIUM
  else if String.eqb code "UNUSUALLY_HIGH_FEE" then Some HIGH
  else None.

Inductive fetch_status : Type := Skipped | Failed | Success.

Global Instance fetch_status_eq_dec : EqDecision fetch_status.
Proof. solve_decision. Defined.

(** The properties of [bestPools.recommended] that the generator reads; each
    may be missing (the "No optimal pool found" object has none of the
    scoring fields). *)
Record Recommended : Type := {
  rec_liquidityUSD : option JS.number;
  rec_liquidity_usd : option JS.number;
  rec_slippagePercent : option JS.number;
  rec_safety_warnings : option (list string);
  rec_riskLevel : option risk;
}.

Record WarningInput : Type := {
  recommended : option Recommended;
  formattedPools : list FormattedPool;
  aggregatePrices : option PriceService.AggregatePrices;
  pricesStale : bool;
  timing_total : JS.number;
  protocolStatus : list (string * fetch_status);
  hasPartialResults : bool;
}.

Definition is_active (p : FormattedPool) : bool :=
  bool_decide (f_status (f_liquidity p) = ACTIVE)
  || bool_decide (f_status (f_liquidity p) = WARNING_LIQUIDITY).

(** The predicate of the [ruggedPools] filter. *)
Definition looks_rugged (p : FormattedPool) : bool :=
  let minReserve := if String.eqb (pairSymbol p) "WBNB" then JS.lit 1 1000 else JS.of_Z 10 in
  (pairTokenAmount p <? minReserve)%js && (targetTokenAmount p >? JS.of_Z 0)%js.

(** The predicate of the [v3RuggedPools] filter; a formatted pool has no
    [isRugged] property. *)
Definition is_v3_rugged (p : FormattedPool) : bool :=
  bool_decide (f_type p = V3) && bool_decide (f_status (f_liquidity p) = RUGGED).

Definition when (b : bool) (f : Warnings → Warnings) (w : Warnings) : Warnings :=
  if b then f w else w.

Definition warn_recommended (r : Recommended) (w : Warnings) : Warnings :=
  let liquidityUSD :=
    (Some (rec_liquidityUSD r |? toNumber (rec_liquidity_usd r)) |? JS.of_Z 0)%js in
  let w1 :=
    if (liquidityUSD <? JS.of_Z 1000)%js then addWarning "EXTREMELY_LOW_LIQUIDITY" CRITICAL w
    else if (liquidityUSD <? JS.of_Z 10000)%js then addWarning "LOW_LIQUIDITY" HIGH w
    else if (liquidityUSD <? JS.of_Z 50000)%js then addWarning "MODERATE_LIQUIDITY" MEDIUM w
    else w in
  let slippage := (rec_slippagePercent r |? JS.of_Z 0)%js in
  let w2 :=
    if (slippage >? JS.of_Z 5)%js then addWarning "EXTREME_SLIPPAGE" CRITICAL w1
    else if (slippage >? JS.of_Z 2)%js then addWarning "HIGH_SLIPPAGE" HIGH w1
    else if (slippage >? JS.of_Z 1)%js then addWarning "MODERATE_SLIPPAGE" MEDIUM w1
    else w1 in
  let w3 :=
    fold_left
      (λ acc safetyWarn,
         match mapSafetyWarning safetyWarn with
         | Some sev => addWarning safetyWarn sev acc
         | None => acc
         end)
      (default [] (rec_safety_warnings r)) w2 in
  match rec_riskLevel r with
  | Some CRITICAL => addWarning "RISK_CRITICAL" CRITICAL w3
  | Some HIGH => addWarning "RISK_HIGH" HIGH w3
  | _ => w3
  end.

Definition warn_spread (a : PriceService.AggregatePrices) (w : Warnings) : Warnings :=
  let priceSpread := (PriceService.maxPriceUSD a - PriceService.minPriceUSD a)%js in
  let avgPrice := (Some (PriceService.avgPriceUSD a) |? JS.of_Z 1)%js in
  let spreadPercent := (priceSpread / avgPrice * JS.of_Z 100)%js in
  if (spreadPercent >? JS.of_Z 10)%js then addWarning "HIGH_PRICE_SPREAD" HIGH w
  else if (spreadPercent >? JS.of_Z 5)%js then addWarning "MODERATE_PRICE_SPREAD" MEDIUM w
  else w.

Definition severityOrder (r : risk) : nat :=
  match r with CRITICAL => 0 | HIGH => 1 | MEDIUM => 2 | LOW => 3 end.

(** [items.sort((a, b) => severityOrder[a.severity] - severityOrder[b.severity])] *)
Definition sort_by_severity (l : list WarningItem) : list WarningItem :=
  merge_sort (λ a b, Is_true (severityOrder (severity a) <=? severityOrder (severity b))%nat) l.

(** [generateWarnings] *)
Definition generateWarnings (i : WarningInput) : Warnings :=
  let w0 := {| items := []; count := 0; hasCritical := false; hasHigh := false |} in
  let failed := List.filter (λ e, bool_decide (e.2 = Failed)) (protocolStatus i) in
  let w1 := when (hasPartialResults i && (0 <? length failed)%nat)
              (addWarning "PARTIAL_RESULTS" MEDIUM) w0 in
  let w2 := when (pricesStale i) (addWarning "STALE_PRICES" MEDIUM) w1 in
  let w3 := when (timing_total i >? JS.of_Z 2000)%js (addWarning "SLOW_RESPONSE" LOW) w2 in
  let activePools := List.filter is_active (formattedPools i) in
  let w4 := when (length activePools =? 0)%nat (addWarning "NO_ACTIVE_POOLS" CRITICAL) w3 in
  let ruggedPools := List.filter looks_rugged (formattedPools i) in
  let w5 := when (0 <? length ruggedPools)%nat (addWarning "RUG_PULL_DETECTED" CRITICAL) w4 in
  let v3RuggedPools := List.filter is_v3_rugged (formattedPools i) in
  let w6 := when (0 <? length v3RuggedPools)%nat (addWarning "V3_RUGGED_POOLS" CRITICAL) w5 in
  let w7 := match recommended i with Some r => warn_recommended r w6 | None => w6 end in
  let w8 := match aggregatePrices i with Some a => warn_spread a w7 | None => w7 end in
  let w9 := when (length activePools =? 1)%nat (addWarning "SINGLE_POOL" MEDIUM) w8 in
  {| items := sort_by_severity (items w9);
     count := count w9;
     hasCritical := hasCritical w9;
     hasHigh := hasHigh w9 |}.

(** ** The batch path of [discoverAllPools] and [_performAnalysis]

    [batchFetchPoolData] pairs every fetched pool with its discovery record
    and enriches it; [discoverAllPools] filters the outcome;
    [_performAnalysis] formats the survivors and generates the warnings. *)

Definition data_address (d : PoolData) : string :=
  match d with DataV2 d => v2_address d | DataV3 d => v3_address d end.

Definition data_type (d : PoolData) : pool_type :=
  match d with DataV2 _ => V2 | DataV3 _ => V3 end.

(** [v2Pools.find(...)] or [v3Pools.find(...)]: the first discovered pool of
    the type of the data with the same lower-cased address. *)
Definition find_info (pools : list PoolInfo) (d : PoolData) : option PoolInfo :=
  List.find (λ p, String.eqb (toLowerCase (info_address p)) (toLowerCase (data_address d)))
    (List.filter (λ p, bool_decide (info_type p = data_type d)) pools).

Definition enrich_all (ps : PriceService.t) (discovered : list PoolInfo)
    (fetched : list PoolData) (tokenInfo : gmap string TokenInfo) : list EnrichedPool :=
  omap (λ d, info ← find_info discovered d;
             Some (enrichPoolData ps d info tokenInfo "PancakeSwap"))
       fetched.

Definition discoverAllPools (ps : PriceService.t) (discovered : list PoolInfo)
    (fetched : list PoolData) (tokenInfo : gmap string TokenInfo) : list EnrichedPool :=
  discovered_pools (map Some (enrich_all ps discovered fetched tokenInfo)).

(** The warnings of an analysis: [bestPools.recommended], the timing and the
    protocol status are whatever the other steps produced. *)
Definition analysis_warnings (ps : PriceService.t) (tokenAddress : string)
    (discovered : list PoolInfo) (fetched : list PoolData)
    (tokenInfo : gmap string TokenInfo)
    (recommended : option Recommended) (pricesStale : bool) (timing_total : JS.number)
    (protocolStatus : list (string * fetch_status)) : Warnings :=
  let allPools := discoverAllPools ps discovered fetched tokenInfo in
  let formattedPools := formatPoolsWithPricing ps allPools tokenAddress in
  let aggregatePrices :=
    PriceService.calculateAggregatePrice ps (map aggregate_view formattedPools) tokenAddress in
  let failedProtocols := List.filter (λ e, bool_decide (e.2 = Failed)) protocolStatus in
  generateWarnings
    {| recommended := recommended;
       formattedPools := formattedPools;
       aggregatePrices := Some aggregatePrices;
       pricesStale := pricesStale;
       timing_total := timing_total;
       protocolStatus := protocolStatus;
       hasPartialResults := (0 <? length failedProtocols)%nat |}.

End WithConstants.
End PoolAnalyzer.

(** ** [analyzeToken]: cache look-up and request de-duplication

    JavaScript runs a call to completion up to its next [await]; the model
    therefore has one function for the synchronous prefix of [analyzeToken] and
    one for each continuation.  [Result] is the object that [_performAnalysis]
    builds; the promise it returns is named by a number. *)

Module AnalyzeToken.
Section WithResult.
Context {Result : Type}.

Record Analyzer : Type := {
  analysisCache : gmap string Result;
  inFlightRequests : gmap string nat;
  started : nat;
}.

(** What a caller receives: the analysis and the [meta] flags that
    [analyzeToken] adds to it. *)
Record Response : Type := {
  result : Result;
  cached : bool;
  deduplicated : bool;
  waitedForInFlight : bool;
}.

Definition inFlightKey (tokenAddress : string) (forceRefresh : bool) : string :=
  tokenAddress +:+ ":" +:+ (if forceRefresh then "true" else "false").

(** Where the call stands when its synchronous prefix ends. *)
Inductive Suspension : Type :=
| Returns (r : Response)
| AwaitsInFlight (promise : nat)
| AwaitsOwn (promise : nat) (key : string).

(** [this.cache.clearTokenAnalysis(tokenAddress)], on the analysis store. *)
Definition clearAllCachesForToken (a : Analyzer) (tokenAddress : string) : Analyzer :=
  {| analysisCache := delete tokenAddress (analysisCache a);
     inFlightRequests := inFlightRequests a;
     started := started a |}.

(** The synchronous prefix of [analyzeToken]; [tokenAddress] is the
    checksummed address.  Starting [_performAnalysis] is what issues the
    upstream fetch set; [started] counts these starts. *)
Definition analyzeToken (a : Analyzer) (tokenAddress : string) (forceRefresh : bool)
  : Analyzer * Suspension :=
  let hit := if forceRefresh then None else analysisCache a !! tokenAddress in
  match hit with
  | Some r =>
      (a, Returns {| result := r; cached := true; deduplicated := false;
                     waitedForInFlight := false |})
  | None =>
      let a1 := if forceRefresh then clearAllCachesForToken a tokenAddress else a in
      let key := inFlightKey tokenAddress forceRefresh in
      match inFlightRequests a1 !! key with
      | Some promise => (a1, AwaitsInFlight promise)
      | None =>
          let promise := started a1 in
          ({| analysisCache := analysisCache a1;
              inFlightRequests := <[key := promise]> (inFlightRequests a1);
              started := S (started a1) |},
           AwaitsOwn promise key)
      end
  end.

(** How a promise settles. *)
Inductive Settled : Type :=
| Fulfilled (r : Result)
| Rejected.

(** The end of [_performAnalysis]: a built result is cached before the
    promise is fulfilled. *)
Definition performAnalysis_end (a : Analyzer) (tokenAddress : string) (s : Settled)
  : Analyzer :=
  match s with
  | Fulfilled r =>
      {| analysisCache := <[tokenAddress := r]> (analysisCache a);
         inFlightRequests := inFlightRequests a;
         started := started a |}
  | Rejected => a
  end.

(** The continuation of the caller that started the analysis: the [finally]
    block, then the result ([None] when the error is thrown again). *)
Definition resume_own (a : Analyzer) (key : string) (s : Settled)
  : Analyzer * option Response :=
  ({| analysisCache := analysisCache a;
      inFlightRequests := delete key (inFlightRequests a);
      started := started a |},
   match s with
   | Fulfilled r => Some {| result := r; cached := false; deduplicated := false;
                            waitedForInFlight := false |}
   | Rejected => None
   end).

(** The continuation of a caller that waited for an in-flight promise. *)
Definition resume_joined (s : Settled) : option Response :=
  match s with
  | Fulfilled r => Some {| result := r; cached := false; deduplicated := true;
                           waitedForInFlight := true |}
  | Rejected => None
  end.

(** *** The service under a sequence of requests and settlements *)

Inductive Event : Type :=
| Request (tokenAddress : string) (forceRefresh : bool)
| Settle (promise : nat) (s : Settled).

Record Service : Type := {
  analyzer : Analyzer;
  owners : gmap nat (string * string * nat);
  joiners : list (nat * nat);
  requests : nat;
  responses : list (nat * option Response);
}.

Definition initial : Service :=
  {| analyzer := {| analysisCache := ∅; inFlightRequests := ∅; started := 0 |};
     owners := ∅; joiners := []; requests := 0; responses := [] |}.

(** A request runs the synchronous prefix and is numbered; a settlement runs
    the end of [_performAnalysis], then the continuation of the request that
    owns the promise, then those of the requests that joined it. *)
Definition step (sv : Service) (e : Event) : Service :=
  match e with
  | Request tokenAddress forceRefresh =>
      let '(a, susp) := analyzeToken (analyzer sv) tokenAddress forceRefresh in
      let n := requests sv in
      match susp with
      | Returns r =>
          {| analyzer := a; owners := owners sv; joiners := joiners sv;
             requests := S n; responses := responses sv ++ [(n, Some r)] |}
      | AwaitsInFlight promise =>
          {| analyzer := a; owners := owners sv; joiners := joiners sv ++ [(n, promise)];
             requests := S n; responses := responses sv |}
      | AwaitsOwn promise key =>
          {| analyzer := a; owners := <[promise := (tokenAddress, key, n)]> (owners sv);
             joiners := joiners sv;
             requests := S n; responses := responses sv |}
      end
  | Settle promise s =>
      match owners sv !! promise with
      | None => sv
      | Some (tokenAddress, key, n) =>
          let a1 := performAnalysis_end (analyzer sv) tokenAddress s in
          let '(a2, own) := resume_own a1 key s in
          let waiting := List.filter (λ j, (j.2 =? promise)%nat) (joiners sv) in
          {| analyzer := a2;
             owners := delete promise (owners sv);
             joiners := List.filter (λ j, negb (j.2 =? promise)%nat) (joiners sv);
             requests := requests sv;
             responses := responses sv ++ (n, own) :: map (λ j, (j.1, resume_joined s)) waiting |}
      end
  end.

Definition run (events : list Event) : Service := fold_left step events initial.

End WithResult.
Global Arguments Analyzer : clear implicits.
Global Arguments Response : clear implicits.
Global Arguments Settled : clear implicits.
Global Arguments Event : clear implicits.
Global Arguments Service : clear implicits.
End AnalyzeToken.

(** * services/MultiHopRouterService.js *)

Module Router.

(** The properties of a pool that [estimateSwapOutput] reads:
    [liquidity?.usd], [price?.usd], [fee] and [price?.ratio]. *)
Record LegPool : Type := {
  leg_liquidity_usd : option JS.number;
  leg_price_usd : option JS.number;
  leg_fee : option JS.number;
  leg_price_ratio : option JS.number;
}.

Record SwapOutput : Type := {
  amountOut : JS.number;
  priceImpact : JS.number;
}.

(** [estimateSwapOutput]; [amountIn] is the number that [parseFloat] reads. *)
Definition estimateSwapOutput (pool : LegPool) (amountIn : JS.number) (isTokenInFirst : bool)
  : SwapOutput :=
  let amountInNum := amountIn in
  let liquidityUSD := (leg_liquidity_usd pool |? JS.of_Z 0)%js in
  let swapValueUSD :=
    (amountInNum * (leg_price_usd pool |? JS.of_Z 0) / JS.of_Z (10 ^ 18))%js in
  let priceImpact :=
    if (liquidityUSD >? JS.of_Z 0)%js then (swapValueUSD / liquidityUSD * JS.of_Z 100)%js
    else JS.of_Z 10 in
  let feePercent := ((leg_fee pool |? JS.of_Z 3000) / JS.of_Z 1000000)%js in
  let priceRatio := (leg_price_ratio pool |? JS.of_Z 1)%js in
  let effectivePrice := if isTokenInFirst then priceRatio else (JS.of_Z 1 / priceRatio)%js in
  let amountOut :=
    (amountInNum * effectivePrice * (JS.of_Z 1 - feePercent)
     * (JS.of_Z 1 - priceImpact / JS.of_Z 100))%js in
  {| amountOut := amountOut;
     priceImpact := JS.min priceImpact (JS.of_Z 50) |}.

End Router.

(** * utils/Cache.js *)

Module Cache.
Section WithData.
Context {Data : Type}.

(** A cached value: [null] or a datum; [undefined] is [None]. *)
Inductive value : Type :=
| VNull
| VData (d : Data).

(** One [NodeCache] store and the [locks] map (key to acquisition time). *)
Record State : Type := {
  store : gmap string value;
  locks : gmap string Z;
}.

(** What happens while the call is suspended at an [await]: other tasks run
    on the shared state and [elapsed] milliseconds pass. *)
Record Tick : Type := {
  others : State → State;
  elapsed : Z;
}.

Definition set_lock (key : string) (now : Z) (st : State) : State :=
  {| store := store st; locks := <[key := now]> (locks st) |}.

(** [releaseLock] *)
Definition releaseLock (key : string) (st : State) : State :=
  {| store := store st; locks := delete key (locks st) |}.

Definition cache_set (key : string) (v : value) (st : State) : State :=
  {| store := <[key := v]> (store st); locks := locks st |}.

Record Acquired : Type := {
  lockAcquired : bool;
  after : State;
  clock : Z;
  rest : list Tick;
}.

(** [acquireLock]: the polling loop.  Each turn tests the lock, then the
    deadline, then sleeps for one tick.  [None] means that the recorded
    schedule ends while the loop is still waiting. *)
Fixpoint acquireLock_from (key : string) (timeout startTime now : Z) (st : State)
    (ticks : list Tick) : option Acquired :=
  if bool_decide (is_Some (locks st !! key)) then
    if timeout <? now - startTime then
      Some {| lockAcquired := false; after := releaseLock key st; clock := now; rest := ticks |}
    else
      match ticks with
      | [] => None
      | t :: ts => acquireLock_from key timeout startTime (now + elapsed t) (others t st) ts
      end
  else
    Some {| lockAcquired := true; after := set_lock key now st; clock := now; rest := ticks |}.

Definition acquireLock (key : string) (timeout now : Z) (st : State) (ticks : list Tick)
  : option Acquired :=
  acquireLock_from key timeout now now st ticks.

(** What the call does, in order. *)
Inductive Event : Type :=
| EvGet (found : option value)
| EvLockTaken
| EvLockForced
| EvFetch
| EvSet (v : value) (ttl : Z)
| EvRelease.

(** How [fetchFn()] settles: with a value, [undefined] ([None]), or an error. *)
Inductive FetchOutcome : Type :=
| Resolves (v : option value)
| Rejects.

Inductive Completion : Type :=
| Returned (v : option value)
| Thrown.

Record Run : Type := {
  completion : Completion;
  final : State;
  trace : list Event;
}.

(** Resumption after an [await]: the next tick of the schedule, or nothing
    when the schedule records no more. *)
Definition resume (st : State) (ticks : list Tick) : State * list Tick :=
  match ticks with
  | [] => (st, [])
  | t :: ts => (others t st, ts)
  end.

(** [getOrSet(cache, key, fetchFn, ttl)], started at clock reading [now]. *)
Definition getOrSet (st : State) (key : string) (fetch : FetchOutcome) (ttl : Z)
    (now : Z) (ticks : list Tick) : option Run :=
  match store st !! key with
  | Some existing =>
      Some {| completion := Returned (Some existing); final := st;
              trace := [EvGet (Some existing)] |}
  | None =>
      acq ← acquireLock key 5000 now st ticks;
      let '(st1, ticks1) := resume (after acq) (rest acq) in
      if negb (lockAcquired acq) then
        Some {| completion := Returned (store st1 !! key); final := st1;
                trace := [EvGet None; EvLockForced; EvGet (store st1 !! key)] |}
      else
        match store st1 !! key with
        | Some doubleCheck =>
            Some {| completion := Returned (Some doubleCheck);
                    final := releaseLock key st1;
                    trace := [EvGet None; EvLockTaken; EvGet (Some doubleCheck); EvRelease] |}
        | None =>
            let '(st2, _) := resume st1 ticks1 in
            match fetch with
            | Rejects =>
                Some {| completion := Thrown; final := releaseLock key st2;
                        trace := [EvGet None; EvLockTaken; EvGet None; EvFetch; EvRelease] |}
            | Resolves (Some (VData d)) =>
                Some {| completion := Returned (Some (VData d));
                        final := releaseLock key (cache_set key (VData d) st2);
                        trace := [EvGet None; EvLockTaken; EvGet None; EvFetch;
                                  EvSet (VData d) ttl; EvRelease] |}
            | Resolves v =>
                Some {| completion := Returned v; final := releaseLock key st2;
                        trace := [EvGet None; EvLockTaken; EvGet None; EvFetch; EvRelease] |}
            end
        end
  end.

End WithData.
Global Arguments value : clear implicits.
Global Arguments State : clear implicits.
Global Arguments Tick : clear implicits.
Global Arguments Acquired : clear implicits.
Global Arguments Event : clear implicits.
Global Arguments FetchOutcome : clear implicits.
Global Arguments Completion : clear implicits.
Global Arguments Run : clear implicits.
End Cache.

(** * Concrete data for the examples *)

(** The token addresses are those of [INTERMEDIATES] in the router. *)
Definition bsc : Constants := {|
  WBNB := "0xbb4CdB9CBd36B01bD1cBaEBF2De08d9173bc095c";
  USDC := "0x8AC76a51cc950d9822D68b83fE1Ad97B32Cd580d";
  USDT := "0x55d398326f99059fF775485246999027B3197955";
  BUSD := "0xe9e7CEA3DedcA5984780Bafc599bD69ADd087D56";
  DAI := "0x1AF3F329e8BE154074D8769D1FFa4eE058B1DBc3";
  CAKE := "0x0E09FaBB73Bd3Ade0a17ECC321fD13a19e81cE82";
  DEFAULT_PRICES_BNB := JS.of_Z 600;
|}.

(** An oracle that knows the wrapper at 300 USD and one stable coin. *)
Definition oracle300 : PriceService.t := {|
  PriceService.basePrices :=
    <[toLowerCase (@WBNB bsc) := JS.of_Z 300]> (<[toLowerCase (@USDT bsc) := JS.of_Z 1]> ∅);
  PriceService.bnbPriceUSD := JS.of_Z 300;
  PriceService.lastPriceUpdate := 0;
  PriceService.priceUpdateInterval := 60000;
  PriceService.fetchLock := false;
|}.

Definition wbnb_info : PoolAnalyzer.TokenInfo := {|
  PoolAnalyzer.ti_address := Some (toLowerCase (@WBNB bsc));
  PoolAnalyzer.ti_symbol := "WBNB";
  PoolAnalyzer.ti_name := "Wrapped BNB";
  PoolAnalyzer.ti_decimals := 18;
|}.

(** A token the oracle has no price for. *)
Definition target_address : string := "0xffffffffffffffffffffffffffffffffffffffff".

Definition target_info : PoolAnalyzer.TokenInfo := {|
  PoolAnalyzer.ti_address := Some target_address;
  PoolAnalyzer.ti_symbol := "TKN";
  PoolAnalyzer.ti_name := "Token";
  PoolAnalyzer.ti_decimals := 18;
|}.

(** A V2 pair of the wrapper (token0) and the target token (token1). *)
Definition one_sided_pair : PoolAnalyzer.V2PoolData := {|
  PoolAnalyzer.v2_address := "0x1111111111111111111111111111111111111111";
  PoolAnalyzer.v2_token0 := @WBNB bsc;
  PoolAnalyzer.v2_token1 := target_address;
  PoolAnalyzer.reserve0 := 10 ^ 18;
  PoolAnalyzer.reserve1 := 0;
|}.

Definition pair_info : PoolAnalyzer.PoolInfo := {|
  PoolAnalyzer.info_address := "0x1111111111111111111111111111111111111111";
  PoolAnalyzer.info_type := V2;
  PoolAnalyzer.info_protocol := "PancakeSwap";
  PoolAnalyzer.info_fee := None;
|}.

Definition token_table : gmap string PoolAnalyzer.TokenInfo :=
  <[toLowerCase (@WBNB bsc) := wbnb_info]> (<[target_address := target_info]> ∅).


Definition wbnb_token : Token :=
  {| address := toLowerCase (@WBNB bsc); symbol := "WBNB"; name := "Wrapped BNB"; decimals := 18 |}.

Definition target_token : Token :=
  {| address := target_address; symbol := "TKN"; name := "Token"; decimals := 18 |}.

(** A formatted pool of the target token against the wrapper in which both
    sides are empty. *)
Definition empty_sides_pool : PoolAnalyzer.FormattedPool := {|
  PoolAnalyzer.f_address := "0x2222222222222222222222222222222222222222";
  PoolAnalyzer.f_protocol := "PancakeSwap";
  PoolAnalyzer.f_type := V2;
  PoolAnalyzer.pair := "TKN/WBNB";
  PoolAnalyzer.pairToken := wbnb_token;
  PoolAnalyzer.fee := JS.of_Z 2500;
  PoolAnalyzer.feePercent := JS.lit 1 4;
  PoolAnalyzer.f_liquidity :=
    {| PoolAnalyzer.f_status := EMPTY;
       PoolAnalyzer.usd := JS.of_Z 0;
       PoolAnalyzer.bnb := JS.of_Z 0;
       PoolAnalyzer.liq_token0 := Some (JS.of_Z 0);
       PoolAnalyzer.liq_token1 := Some (JS.of_Z 0);
       PoolAnalyzer.liq_token0Amount := None;
       PoolAnalyzer.liq_token1Amount := None;
       PoolAnalyzer.f_raw := 0 |};
  PoolAnalyzer.f_price :=
    {| PoolAnalyzer.p_token0 := JS.of_Z 0; PoolAnalyzer.p_token1 := JS.of_Z 0;
       PoolAnalyzer.p_ratio := JS.of_Z 0; PoolAnalyzer.p_raw := JS.of_Z 0;
       PoolAnalyzer.source := "none";
       PoolAnalyzer.inPairToken := JS.of_Z 0; PoolAnalyzer.inBNB := JS.of_Z 0;
       PoolAnalyzer.inUSD := JS.of_Z 0 |};
  PoolAnalyzer.f_token0 := target_token;
  PoolAnalyzer.f_token1 := wbnb_token;
  PoolAnalyzer.isToken0 := true;
  PoolAnalyzer.f_tick := None;
  PoolAnalyzer.f_sqrtPriceX96 := None;
|}.

(** A V3 pool of the wrapper (token0) and the unpriced token (token1) that
    holds nine units of the latter and no wrapper at all. *)
Definition drained_v3 : PoolAnalyzer.V3PoolData := {|
  PoolAnalyzer.v3_address := "0x3333333333333333333333333333333333333333";
  PoolAnalyzer.v3_token0 := @WBNB bsc;
  PoolAnalyzer.v3_token1 := target_address;
  PoolAnalyzer.v3_fee := JS.of_Z 2500;
  PoolAnalyzer.v3_liquidity := 10 ^ 18;
  PoolAnalyzer.slot0 := Some {| PoolAnalyzer.sqrtPriceX96 := 2 ^ 96; PoolAnalyzer.tick := 0 |};
  PoolAnalyzer.actualBalance0 := Some 0;
  PoolAnalyzer.actualBalance1 := Some (9 * 10 ^ 18);
  PoolAnalyzer.est_token0Amount := None;
  PoolAnalyzer.est_token1Amount := None;
|}.

Definition v3_info : PoolAnalyzer.PoolInfo := {|
  PoolAnalyzer.info_address := "0x3333333333333333333333333333333333333333";
  PoolAnalyzer.info_type := V3;
  PoolAnalyzer.info_protocol := "PancakeSwap";
  PoolAnalyzer.info_fee := Some (JS.of_Z 2500);
|}.

(** The same pool as the analysis of the wrapper token formats it. *)
Definition drained_v3_formatted : PoolAnalyzer.FormattedPool :=
  PoolAnalyzer.formatPool (K := bsc) oracle300 (@WBNB bsc)
    (PoolAnalyzer.enrichV3 oracle300 drained_v3 v3_info token_table "PancakeSwap").

Definition RUG : string := "RUG_PULL_DETECTED".

(** A V3 pool at price 1 whose active liquidity is zero. *)
Definition zero_liquidity_v3 : PoolAnalyzer.V3PoolData := {|
  PoolAnalyzer.v3_address := "0x3333333333333333333333333333333333333333";
  PoolAnalyzer.v3_token0 := target_address;
  PoolAnalyzer.v3_token1 := @WBNB bsc;
  PoolAnalyzer.v3_fee := JS.of_Z 2500;
  PoolAnalyzer.v3_liquidity := 0;
  PoolAnalyzer.slot0 := Some {| PoolAnalyzer.sqrtPriceX96 := 2 ^ 96; PoolAnalyzer.tick := 0 |};
  PoolAnalyzer.actualBalance0 := Some (5 * 10 ^ 18);
  PoolAnalyzer.actualBalance1 := Some (10 ^ 18);
  PoolAnalyzer.est_token0Amount := None;
  PoolAnalyzer.est_token1Amount := None;
|}.

(** A V2 pair with both reserves at zero. *)
Definition empty_pair : PoolAnalyzer.V2PoolData := {|
  PoolAnalyzer.v2_address := "0x1111111111111111111111111111111111111111";
  PoolAnalyzer.v2_token0 := @WBNB bsc;
  PoolAnalyzer.v2_token1 := target_address;
  PoolAnalyzer.reserve0 := 0;
  PoolAnalyzer.reserve1 := 0;
|}.

(** The pair of the second scenario: 1000 target tokens against 2 wrapper
    tokens, discovered with a fee of 3000. *)
Definition balanced_pair : PoolAnalyzer.V2PoolData := {|
  PoolAnalyzer.v2_address := "0x4444444444444444444444444444444444444444";
  PoolAnalyzer.v2_token0 := target_address;
  PoolAnalyzer.v2_token1 := @WBNB bsc;
  PoolAnalyzer.reserve0 := 1000 * 10 ^ 18;
  PoolAnalyzer.reserve1 := 2 * 10 ^ 18;
|}.

Definition balanced_info : PoolAnalyzer.PoolInfo := {|
  PoolAnalyzer.info_address := "0x4444444444444444444444444444444444444444";
  PoolAnalyzer.info_type := V2;
  PoolAnalyzer.info_protocol := "PancakeSwap";
  PoolAnalyzer.info_fee := Some (JS.of_Z 3000);
|}.

Definition balanced_formatted : PoolAnalyzer.FormattedPool :=
  PoolAnalyzer.formatPool (K := bsc) oracle300 target_address
    (PoolAnalyzer.enrichV2 oracle300 balanced_pair balanced_info token_table "PancakeSwap").

(** The oracle as its constructor seeds it. *)
Definition oracle_seeded : PriceService.t := PriceService.new (K := bsc) 0.

(** A refresh that reads the wrapper at about 612 USD from the stable pool
    and fails to decode the ecosystem pool. *)
Definition reading_612 : PriceService.MulticallOutcome :=
  PriceService.CallReturned
    {| PriceService.slot0_success := true; PriceService.token0_success := true;
       PriceService.slot0_sqrtPriceX96 := Some 3202559878862243183203648471;
       PriceService.token0_address := Some (@USDT bsc) |}
    {| PriceService.slot0_success := true; PriceService.token0_success := false;
       PriceService.slot0_sqrtPriceX96 := None;
       PriceService.token0_address := None |}.

Definition usdt_token : Token :=
  {| address := toLowerCase (@USDT bsc); symbol := "USDT"; name := "Tether USD"; decimals := 18 |}.

(** A pool of the target token against the stable coin at the given price,
    with 1000 USD of liquidity, as the aggregation reads it. *)
Definition stable_pool (addr : string) (ratio : JS.number) : Pool := {|
  pool_address := addr;
  pool_type_of := V2;
  token0 := target_token;
  token1 := usdt_token;
  price := Some {| token0Price := None; token1Price := None; ratio := Some ratio |};
  liquidity_usd := Some (JS.of_Z 1000);
  liquidity_eth := None;
|}.

(** The five pools of the outlier scenario: prices 1.00, 1.01, 0.99, 1.02
    and 50.00 with equal liquidity. *)
Definition outlier_pools : list Pool :=
  [ stable_pool "0xa1" (JS.lit 100 100); stable_pool "0xa2" (JS.lit 101 100);
    stable_pool "0xa3" (JS.lit 99 100); stable_pool "0xa4" (JS.lit 102 100);
    stable_pool "0xa5" (JS.lit 5000 100) ].

(** A cache whose key ["k"] is locked by a task that never finishes, and a
    schedule of three sleeps of two seconds during which nothing else runs. *)
Definition wedged : Cache.State nat :=
  {| Cache.store := ∅; Cache.locks := <["k"%string := 0]> ∅ |}.

Definition idle (ms : Z) : Cache.Tick nat := {| Cache.others := id; Cache.elapsed := ms |}.

Definition three_sleeps : list (Cache.Tick nat) := [idle 2000; idle 2000; idle 2000].


Definition vacant : Cache.State nat := {| Cache.store := ∅; Cache.locks := ∅ |}.

(** Three requests for one token: a plain one, a forced refresh that is
    fulfilled with the analysis 42, then the plain one again, while the first
    is still in flight. *)
Definition token_a : string := "0xAAaaAAaaAAaaAAaaAAaaAAaaAAaaAAaaAAaaAAaa".

Definition overtaken : AnalyzeToken.Service nat :=
  AnalyzeToken.run
    [ AnalyzeToken.Request token_a false;
      AnalyzeToken.Request token_a true;
      AnalyzeToken.Settle 1%nat (AnalyzeToken.Fulfilled 42%nat) ].

(** ** Auxiliary predicates of the proofs *)

(** The number is the finite value zero. *)
Definition is_zero (x : JS.number) : Prop := JS.eqv x (JS.of_Z 0).

(** The warnings hold an item with code [c]. *)
Definition has_code (c : string) (w : PoolAnalyzer.Warnings) : Prop :=
  In c (map PoolAnalyzer.code (PoolAnalyzer.items w)).

(** Every price that the oracle holds is a finite number. *)
Definition finite_prices (ps : PriceService.t) : bool :=
  bool_decide (map_Forall (λ _ v, JS.isFinite v = true) (PriceService.basePrices ps)).

(** [lo < x < hi] *)
Definition strictly_inside (lo hi x : JS.number) : bool := (lo <? x)%js && (x <? hi)%js.

(** The state that the constructor of the oracle establishes and every
    refresh keeps: the two copies of the wrapper price agree, and the
    ecosystem token has a price that is not zero. *)
Definition oracle_wf `{K : Constants} (ps : PriceService.t) : Prop :=
  PriceService.basePrices ps !! toLowerCase WBNB = Some (PriceService.bnbPriceUSD ps)
  ∧ ∃ c, PriceService.basePrices ps !! toLowerCase CAKE = Some c ∧ JS.truthy c = true.

(** ** The aggregate price as the specification words it

    The liquidity-weighted mean of the per-pool USD prices over the pools
    whose USD price and USD liquidity are positive and whose USD price lies
    within [median * 0.1, median * 10]; 0 when no pool qualifies. *)

Module AggregateSpec.

Definition price (p : PriceService.PoolWithPrices) : JS.number :=
  PriceService.pp_priceInUSD (PriceService.pw_prices p).

Definition liquidity (p : PriceService.PoolWithPrices) : JS.number :=
  PriceService.liquidityUSD p.

Definition included (medianUSD : JS.number) (p : PriceService.PoolWithPrices) : bool :=
  (price p >? JS.of_Z 0)%js && (liquidity p >? JS.of_Z 0)%js
  && ((price p >=? medianUSD * JS.lit 1 10)%js && (price p <=? medianUSD * JS.of_Z 10)%js).





End AggregateSpec.





(** ** The leg estimate as the specification words it *)

Module RouterSpec.



End RouterSpec.

(** * Properties *)

(** ** Pool value of a V2 pair *)

(** With only [token0] priced, the guard of the derived price tests
    [reserve0] while the quotient divides by [reserve1]. *)
Lemma calculatePoolValue_token0_only (ps : PriceService.t) (r0 r1 : JS.number)
    (i0 i1 : PoolAnalyzer.TokenInfo) :
  (PoolAnalyzer.known_price ps i0 >? JS.of_Z 0)%js = true →
  (PoolAnalyzer.known_price ps i1 >? JS.of_Z 0)%js = false →
  (PoolAnalyzer.calculatePoolValue ps r0 r1 i0 i1).1 =
    (r0 * PoolAnalyzer.known_price ps i0
     + r1 * (if (r0 >? JS.of_Z 0)%js then r0 / r1 * PoolAnalyzer.known_price ps i0
             else JS.of_Z 0))%js.
Proof.
  intros H0 H1. unfold PoolAnalyzer.calculatePoolValue.
  rewrite H0, H1. reflexivity.
Qed.

Lemma positive_cases (x : JS.number) :
  (x >? JS.of_Z 0)%js = true →
  x = JS.PosInf ∨ ∃ n d, x = JS.Fin (Zpos n # d).
Proof.
  destruct x as [[n d]| | |]; try discriminate; [|auto].
  unfold JS.gtb. cbn [JS.ltb JS.of_Z]. rewrite negb_true_iff. intros H. right.
  destruct n as [|n|n]; [discriminate H | eauto | discriminate H].
Qed.

(** Whatever the oracle holds: when only [token0] is priced, [reserve0] is
    positive and [reserve1] is zero, the total is NaN. *)
Lemma calculatePoolValue_nan_on_empty_side (ps : PriceService.t) (r0 : JS.number)
    (i0 i1 : PoolAnalyzer.TokenInfo) :
  (PoolAnalyzer.known_price ps i0 >? JS.of_Z 0)%js = true →
  (PoolAnalyzer.known_price ps i1 >? JS.of_Z 0)%js = false →
  (r0 >? JS.of_Z 0)%js = true →
  (PoolAnalyzer.calculatePoolValue ps r0 (JS.of_Z 0) i0 i1).1 = JS.NaN.
Proof.
  intros H0 H1 Hr. rewrite calculatePoolValue_token0_only by assumption. rewrite Hr.
  destruct (positive_cases _ H0) as [-> | (n & d & ->)];
    destruct (positive_cases _ Hr) as [-> | (m & e & ->)]; reflexivity.
Qed.

(** C10, a defect of the code.  A V2 pair holding one wrapper token and none
    of the unpriced token: the derived price is [1/0 * 300 = Infinity], the
    value of the empty side is [0 * Infinity = NaN], and so is the total. *)
Theorem calculatePoolValue_not_finite_on_one_sided_pair :
  let e := PoolAnalyzer.enrichV2 oracle300 one_sided_pair pair_info token_table "PancakeSwap" in
  PoolAnalyzer.token0Amount (PoolAnalyzer.liquidity e) = JS.Fin (10 ^ 18 # 10 ^ 18)
  ∧ JS.eqv (PoolAnalyzer.token1Amount (PoolAnalyzer.liquidity e)) (JS.of_Z 0)
  ∧ PoolAnalyzer.totalValueUSD (PoolAnalyzer.liquidity e) = JS.NaN
  ∧ JS.isFinite (PoolAnalyzer.totalValueUSD (PoolAnalyzer.liquidity e)) = false.
Proof. vm_compute. repeat split. Qed.

(** ** Leg output estimate *)


(** ** Safety checks of the scorer *)

Section SafetyChecks.
Import PoolAnalyzer.

Lemma push_warnings (w : string) (d : JS.number) (c : SafetyChecks) :
  warnings (push w d c) = warnings c ++ [w].
Proof. reflexivity. Qed.

Lemma rug_in_push (w : string) (d : JS.number) (c : SafetyChecks) :
  w ≠ RUG → (In RUG (warnings (push w d c)) ↔ In RUG (warnings c)).
Proof.
  intros Hw. rewrite push_warnings, in_app_iff. simpl. split; [|tauto].
  intros [H | [H | []]]; [exact H | congruence].
Qed.

Local Ltac rug_push := rewrite rug_in_push by (unfold RUG; discriminate).

Lemma rug_check_v3_range (pool : FormattedPool) (c : SafetyChecks) :
  In RUG (warnings (check_v3_range pool c)) ↔ In RUG (warnings c).
Proof.
  unfold check_v3_range.
  destruct (f_type pool), (f_tick pool), (f_sqrtPriceX96 pool); try reflexivity.
  destruct (f_raw (f_liquidity pool) =? 0); [|reflexivity].
  cbn [warnings]. rug_push. reflexivity.
Qed.

Lemma rug_check_price_deviation (pool : FormattedPool) (c : SafetyChecks) :
  In RUG (warnings (check_price_deviation pool c)) ↔ In RUG (warnings c).
Proof.
  unfold check_price_deviation.
  destruct (inUSD (f_price pool) >? JS.of_Z 0)%js; [|reflexivity].
  repeat match goal with |- context [if ?b then _ else _] => destruct b end;
    try rug_push; reflexivity.
Qed.

Lemma rug_check_sandwich (t l : JS.number) (c : SafetyChecks) :
  In RUG (warnings (check_sandwich t l c)) ↔ In RUG (warnings c).
Proof.
  unfold check_sandwich.
  repeat match goal with |- context [if ?b then _ else _] => destruct b end;
    try rug_push; reflexivity.
Qed.

Lemma rug_check_depth (l : JS.number) (c : SafetyChecks) :
  In RUG (warnings (check_depth l c)) ↔ In RUG (warnings c).
Proof.
  unfold check_depth.
  repeat match goal with |- context [if ?b then _ else _] => destruct b end;
    try rug_push; reflexivity.
Qed.

Lemma rug_check_inactive (pool : FormattedPool) (c : SafetyChecks) :
  In RUG (warnings (check_inactive pool c)) ↔ In RUG (warnings c).
Proof.
  unfold check_inactive.
  destruct (bool_decide _); try rug_push; reflexivity.
Qed.

Lemma rug_check_volatile_pair (pool : FormattedPool) (t : JS.number) (c : SafetyChecks) :
  In RUG (warnings (check_volatile_pair pool t c)) ↔ In RUG (warnings c).
Proof.
  unfold check_volatile_pair.
  match goal with |- context [if ?b then _ else _] => destruct b end;
    try rug_push; reflexivity.
Qed.

Lemma rug_check_fee (pool : FormattedPool) (c : SafetyChecks) :
  In RUG (warnings (check_fee pool c)) ↔ In RUG (warnings c).
Proof.
  unfold check_fee.
  match goal with |- context [if ?b then _ else _] => destruct b end;
    try rug_push; reflexivity.
Qed.

(** The warning is raised exactly when the pair side is below its minimum;
    the reserve of the target token plays no part. *)
Lemma rug_pull_iff_pair_below_minimum (pool : FormattedPool) (t l b : JS.number) :
  In RUG (warnings (performSafetyChecks pool t l b))
  ↔ (pairTokenAmount pool <? minPairReserve (pairSymbol pool))%js = true.
Proof.
  unfold performSafetyChecks. cbn [warnings].
  rewrite rug_check_fee, rug_check_volatile_pair, rug_check_inactive.
  unfold check_rug_pull.
  destruct (pairTokenAmount pool <? minPairReserve (pairSymbol pool))%js.
  - cbn [warnings]. rewrite in_app_iff. simpl. unfold RUG. tauto.
  - rewrite rug_check_depth, rug_check_sandwich, rug_check_price_deviation,
      rug_check_v3_range.
    simpl. split; [tauto | discriminate].
Qed.

(** C2, a defect of the code.  A pool whose two sides are both empty: the
    target-token reserve is not greater than zero, yet the scorer raises
    RUG_PULL_DETECTED, sets the safety score to 0 and marks the pool
    untradeable; the filter of the warning generator, which also asks for a
    positive target reserve, does not select the same pool. *)
Theorem performSafetyChecks_rug_pull_without_target_reserve :
  let c := performSafetyChecks empty_sides_pool (JS.of_Z 1000) (JS.of_Z 0) (JS.of_Z 300) in
  (targetTokenAmount empty_sides_pool >? JS.of_Z 0)%js = false
  ∧ In "RUG_PULL_DETECTED" (warnings c)
  ∧ safetyScore c = JS.of_Z 0
  ∧ isUntradeable c = true
  ∧ looks_rugged empty_sides_pool = false.
Proof. vm_compute. intuition. Qed.

(** The same happens to a pool that the analysis itself produces and scores:
    an ACTIVE V3 pool of the analysed token whose target side is empty. *)
Lemma performSafetyChecks_rug_pull_on_analysed_pool :
  let pool := drained_v3_formatted in
  let c := performSafetyChecks pool (JS.of_Z 1000) (usd (f_liquidity pool)) (JS.of_Z 300) in
  f_status (f_liquidity pool) = ACTIVE
  ∧ JS.eqv (targetTokenAmount pool) (JS.of_Z 0)
  ∧ JS.eqv (pairTokenAmount pool) (JS.of_Z 9)
  ∧ In "RUG_PULL_DETECTED" (warnings c)
  ∧ safetyScore c = JS.of_Z 0
  ∧ isUntradeable c = true.
Proof. vm_compute. intuition. Qed.

End SafetyChecks.

(** ** Facts about JavaScript numbers *)

Section NumberFacts.

Lemma Qle_bool_false (a b : Q) : Qle_bool a b = false ↔ (b < a)%Q.
Proof.
  split.
  - intros H. apply Qnot_le_lt. intros Hle. apply Qle_bool_iff in Hle. congruence.
  - intros H. destruct (Qle_bool a b) eqn:E; [|reflexivity].
    apply Qle_bool_iff in E. exfalso. eapply Qlt_not_le; eauto.
Qed.

Lemma Qeq_bool_false (a b : Q) : Qeq_bool a b = false ↔ ¬ (a == b)%Q.
Proof.
  split.
  - intros H E. apply Qeq_bool_iff in E. congruence.
  - intros H. destruct (Qeq_bool a b) eqn:E; [|reflexivity].
    apply Qeq_bool_iff in E. contradiction.
Qed.

Lemma ltb_Fin (a b : Q) : (JS.Fin a <? JS.Fin b)%js = true ↔ (a < b)%Q.
Proof.
  simpl. rewrite negb_true_iff. apply Qle_bool_false.
Qed.

Lemma is_zero_Fin (x : JS.number) : is_zero x ↔ ∃ q, x = JS.Fin q ∧ (q == 0)%Q.
Proof.
  unfold is_zero. destruct x as [q| | |]; simpl; split; try tauto.
  - intros H. exists q. split; [reflexivity | exact H].
  - intros (q' & [= ->] & H). exact H.
  - intros (q' & [=] & _).
  - intros (q' & [=] & _).
  - intros (q' & [=] & _).
Qed.

Lemma is_zero_of_Z : is_zero (JS.of_Z 0).
Proof. unfold is_zero. simpl. reflexivity. Qed.

Lemma is_zero_formatUnits (d : Z) : is_zero (JS.formatUnits 0 d).
Proof. unfold is_zero, JS.formatUnits. simpl. unfold Qdiv. ring. Qed.

Lemma is_zero_mul_l (x y : JS.number) :
  is_zero x → JS.isFinite y = true → is_zero (x * y)%js.
Proof.
  intros (q & -> & Hq)%is_zero_Fin Hy. destruct y as [r| | |]; try discriminate.
  unfold is_zero. simpl. rewrite Hq. ring.
Qed.

Lemma is_zero_mul_r (x y : JS.number) :
  JS.isFinite x = true → is_zero y → is_zero (x * y)%js.
Proof.
  intros Hx (q & -> & Hq)%is_zero_Fin. destruct x as [r| | |]; try discriminate.
  unfold is_zero. simpl. rewrite Hq. ring.
Qed.

Lemma is_zero_add (x y : JS.number) : is_zero x → is_zero y → is_zero (x + y)%js.
Proof.
  intros (q & -> & Hq)%is_zero_Fin (r & -> & Hr)%is_zero_Fin.
  unfold is_zero. simpl. rewrite Hq, Hr. ring.
Qed.

Lemma is_zero_finite (x : JS.number) : is_zero x → JS.isFinite x = true.
Proof. intros (q & -> & _)%is_zero_Fin. reflexivity. Qed.

Lemma is_zero_not_positive (x : JS.number) : is_zero x → (x >? JS.of_Z 0)%js = false.
Proof.
  intros (q & -> & Hq)%is_zero_Fin. unfold JS.gtb. simpl.
  apply negb_false_iff, Qle_bool_iff. rewrite Hq. unfold inject_Z. lra.
Qed.

Lemma is_zero_leb_zero (x : JS.number) : is_zero x → (x <=? JS.of_Z 0)%js = true.
Proof.
  intros (q & -> & Hq)%is_zero_Fin. simpl.
  apply Qle_bool_iff. rewrite Hq. unfold inject_Z. lra.
Qed.

Lemma is_zero_below (x : JS.number) (n : Z) :
  (0 < n)%Z → is_zero x → (x >=? JS.of_Z n)%js = false.
Proof.
  intros Hn (q & -> & Hq)%is_zero_Fin. unfold JS.geb. simpl.
  apply Qle_bool_false. rewrite Hq. unfold Qlt. simpl. lia.
Qed.

End NumberFacts.

(** ** Enrichment of pools in a zero state *)

Section ZeroState.
Import PoolAnalyzer.
Context {K : Constants}.

Lemma known_price_finite (ps : PriceService.t) (info : TokenInfo) :
  finite_prices ps = true → JS.isFinite (known_price ps info) = true.
Proof.
  intros Hfin. apply bool_decide_eq_true in Hfin.
  unfold known_price, JS.or_else.
  destruct (PriceService.basePrices ps !! _) as [v|] eqn:E; [|reflexivity].
  destruct (JS.truthy v); [|reflexivity].
  exact (Hfin _ _ E).
Qed.

Lemma calculatePoolValue_zero (ps : PriceService.t) (r0 r1 : JS.number) (i0 i1 : TokenInfo) :
  finite_prices ps = true → is_zero r0 → is_zero r1 →
  is_zero (calculatePoolValue ps r0 r1 i0 i1).1.
Proof.
  intros Hfin H0 H1.
  pose proof (known_price_finite ps i0 Hfin) as F0.
  pose proof (known_price_finite ps i1 Hfin) as F1.
  unfold calculatePoolValue. cbn [fst].
  rewrite (is_zero_not_positive r0 H0), (is_zero_not_positive r1 H1).
  repeat match goal with |- context [if ?b then _ else _] => destruct b end;
    repeat first
      [ apply is_zero_of_Z
      | apply is_zero_add
      | apply is_zero_mul_l; [assumption | assumption]
      | apply is_zero_mul_r; [apply is_zero_finite; assumption | apply is_zero_of_Z] ].
Qed.

Lemma status_of_zero (total : JS.number) (empty : bool) :
  is_zero total → status_of total empty = if empty then EMPTY else LOW_LIQUIDITY.
Proof.
  intros H. unfold status_of.
  rewrite (is_zero_below total 1000), (is_zero_below total 100) by (lia || assumption).
  reflexivity.
Qed.

(** A V2 pair with both reserves at zero is EMPTY. *)
Lemma enrichV2_zero_reserves (ps : PriceService.t) (d : V2PoolData) (info : PoolInfo)
    (tokenInfo : gmap string TokenInfo) (protocol : string) :
  finite_prices ps = true → reserve0 d = 0 → reserve1 d = 0 →
  status (liquidity (enrichV2 ps d info tokenInfo protocol)) = EMPTY.
Proof.
  intros Hfin H0 H1. unfold enrichV2. rewrite H0, H1.
  set (i0 := lookup_token tokenInfo (v2_token0 d)).
  set (i1 := lookup_token tokenInfo (v2_token1 d)).
  pose proof (calculatePoolValue_zero ps _ _ i0 i1 Hfin
                (is_zero_formatUnits (ti_decimals i0))
                (is_zero_formatUnits (ti_decimals i1))) as Hz.
  destruct (calculatePoolValue ps _ _ i0 i1) as [usd bnbv]. cbn [fst] in Hz.
  cbn [liquidity status].
  rewrite (status_of_zero _ _ Hz).
  rewrite (is_zero_leb_zero _ Hz),
    (is_zero_leb_zero _ (is_zero_formatUnits (ti_decimals i0))),
    (is_zero_leb_zero _ (is_zero_formatUnits (ti_decimals i1))).
  reflexivity.
Qed.

(** The formatter gives such a pair the price ratio 0. *)
Lemma formatPool_zero_reserves (ps : PriceService.t) (tokenAddress : string) (e : EnrichedPool) :
  e_type e = V2 → e_reserves e = Some (0, 0) →
  p_ratio (f_price (formatPool ps tokenAddress e)) = JS.of_Z 0.
Proof.
  intros Ht Hr. unfold formatPool. cbn [f_price p_ratio].
  unfold base_price. rewrite Ht, Hr. reflexivity.
Qed.

(** A V3 pool with zero liquidity is RUGGED. *)
Lemma enrichV3_zero_liquidity (ps : PriceService.t) (d : V3PoolData) (info : PoolInfo)
    (tokenInfo : gmap string TokenInfo) (protocol : string) :
  v3_liquidity d = 0 →
  let e := enrichV3 ps d info tokenInfo protocol in
  status (liquidity e) = RUGGED ∧ isRugged e = true ∧ rugReason e = Some "Zero liquidity"%string
  ∧ e_type e = V3
  ∧ e_sqrtPriceX96 e = Some (match slot0 d with Some s => sqrtPriceX96 s | None => 0 end).
Proof.
  intros H. unfold enrichV3. rewrite H. cbn [Z.eqb]. rewrite orb_true_r.
  repeat split.
Qed.

(** Its price ratio is derived from [sqrtPriceX96] alone and is 0 when that
    is 0. *)
Lemma formatPool_zero_sqrtPrice (ps : PriceService.t) (tokenAddress : string) (e : EnrichedPool) :
  e_type e = V3 → e_sqrtPriceX96 e = Some 0 →
  p_ratio (f_price (formatPool ps tokenAddress e)) = JS.of_Z 0.
Proof.
  intros Ht Hr. unfold formatPool. cbn [f_price p_ratio].
  unfold base_price. rewrite Ht, Hr. reflexivity.
Qed.

End ZeroState.

(** C4, as the code has it.  For finite oracle prices: a V2 pair with both
    reserves at zero is enriched to status EMPTY and formatted with price
    ratio 0; a V3 pool with zero liquidity is enriched to status RUGGED (not
    EMPTY), and its price ratio, which the formatter derives from
    [sqrtPriceX96] alone, is 0 when [sqrtPriceX96] is 0. *)
Theorem zero_state_ratio_and_status `{K : Constants} (ps : PriceService.t)
    (info : PoolAnalyzer.PoolInfo) (tokenInfo : gmap string PoolAnalyzer.TokenInfo)
    (protocol tokenAddress : string) (Hfin : finite_prices ps = true) :
  (∀ d : PoolAnalyzer.V2PoolData,
     PoolAnalyzer.reserve0 d = 0 → PoolAnalyzer.reserve1 d = 0 →
     let e := PoolAnalyzer.enrichPoolData ps (PoolAnalyzer.DataV2 d) info tokenInfo protocol in
     PoolAnalyzer.status (PoolAnalyzer.liquidity e) = EMPTY
     ∧ PoolAnalyzer.p_ratio (PoolAnalyzer.f_price (PoolAnalyzer.formatPool ps tokenAddress e))
       = JS.of_Z 0)
  ∧ (∀ d : PoolAnalyzer.V3PoolData,
     PoolAnalyzer.v3_liquidity d = 0 →
     let e := PoolAnalyzer.enrichPoolData ps (PoolAnalyzer.DataV3 d) info tokenInfo protocol in
     PoolAnalyzer.status (PoolAnalyzer.liquidity e) = RUGGED
     ∧ ((∀ s, PoolAnalyzer.slot0 d = Some s → PoolAnalyzer.sqrtPriceX96 s = 0) →
        PoolAnalyzer.p_ratio (PoolAnalyzer.f_price (PoolAnalyzer.formatPool ps tokenAddress e))
        = JS.of_Z 0)).
Proof.
  split.
  - intros d H0 H1. cbn [PoolAnalyzer.enrichPoolData]. split.
    + apply enrichV2_zero_reserves; assumption.
    + apply formatPool_zero_reserves; [reflexivity|].
      unfold PoolAnalyzer.enrichV2.
      destruct (PoolAnalyzer.calculatePoolValue _ _ _ _ _).
      cbn [PoolAnalyzer.e_reserves]. rewrite H0, H1. reflexivity.
  - intros d Hl. cbn [PoolAnalyzer.enrichPoolData].
    destruct (enrichV3_zero_liquidity ps d info tokenInfo protocol Hl)
      as (Hs & _ & _ & Ht & Hq).
    split; [exact Hs|].
    intros Hz. apply formatPool_zero_sqrtPrice; [exact Ht|].
    rewrite Hq. destruct (PoolAnalyzer.slot0 d) as [s|]; [|reflexivity].
    rewrite (Hz s eq_refl). reflexivity.
Qed.

(** The statement holds of the oracle that knows the wrapper at 300 USD. *)
Lemma zero_state_ratio_and_status_witness :
  finite_prices oracle300 = true
  ∧ PoolAnalyzer.status (PoolAnalyzer.liquidity
      (PoolAnalyzer.enrichPoolData oracle300 (PoolAnalyzer.DataV2 empty_pair) pair_info
         token_table "PancakeSwap")) = EMPTY.
Proof.
  assert (H : finite_prices oracle300 = true) by (vm_compute; reflexivity).
  split; [exact H|].
  exact (proj1 (proj1 (zero_state_ratio_and_status (K := bsc) oracle300 pair_info token_table
                  "PancakeSwap" target_address H) empty_pair eq_refl eq_refl)).
Defined.

(** C4 as stated fails for V3: the pool with zero liquidity and
    [sqrtPriceX96 = 2^96] is RUGGED, not EMPTY, and its price ratio is 1. *)
Lemma zero_liquidity_v3_is_not_empty :
  let e := PoolAnalyzer.enrichPoolData oracle300 (PoolAnalyzer.DataV3 zero_liquidity_v3)
             v3_info token_table "PancakeSwap" in
  let f := PoolAnalyzer.formatPool (K := bsc) oracle300 target_address e in
  PoolAnalyzer.v3_liquidity zero_liquidity_v3 = 0
  ∧ ¬ (JS.eqv (PoolAnalyzer.p_ratio (PoolAnalyzer.f_price f)) (JS.of_Z 0)
       ∧ PoolAnalyzer.f_status (PoolAnalyzer.f_liquidity f) = EMPTY).
Proof.
  split; [reflexivity|]. vm_compute. intros [H _]. discriminate H.
Qed.

(** ** Rugged V3 pools and the warnings of an analysis *)

Section RuggedWarning.
Import PoolAnalyzer.
Context {K : Constants}.

Lemma status_of_not_rugged (total : JS.number) (empty : bool) :
  status_of total empty ≠ RUGGED.
Proof.
  unfold status_of.
  repeat match goal with |- context [if ?b then _ else _] => destruct b end; discriminate.
Qed.

(** An enriched pool that passes the filter of [discoverAllPools] is not
    RUGGED: the rugged branch writes [raw = '0'], no reserves and a status
    other than ACTIVE. *)
Lemma kept_pool_not_rugged (ps : PriceService.t) (d : PoolData) (info : PoolInfo)
    (tokenInfo : gmap string TokenInfo) (protocol : string) :
  hasLiquidity (enrichPoolData ps d info tokenInfo protocol) = true →
  status (liquidity (enrichPoolData ps d info tokenInfo protocol)) ≠ RUGGED.
Proof.
  destruct d as [d|d]; cbn [enrichPoolData].
  - intros _. unfold enrichV2.
    destruct (calculatePoolValue _ _ _ _ _). cbn [liquidity status].
    apply status_of_not_rugged.
  - unfold enrichV3.
    destruct (isTickAtBoundary _ || (v3_liquidity d =? 0)).
    + unfold hasLiquidity. cbn. discriminate.
    + intros _. cbn [liquidity status]. apply status_of_not_rugged.
Qed.

Lemma in_discovered_pools (l : list EnrichedPool) (e : EnrichedPool) :
  In e (discovered_pools (map Some l)) → In e l ∧ hasLiquidity e = true.
Proof.
  unfold discovered_pools. induction l as [|x l IH]; cbn; [tauto|].
  destruct (hasLiquidity x) eqn:E; cbn.
  - intros [<- | H]; [tauto|]. destruct (IH H). tauto.
  - intros H. destruct (IH H). tauto.
Qed.

Lemma in_enrich_all (ps : PriceService.t) (discovered : list PoolInfo) (fetched : list PoolData)
    (tokenInfo : gmap string TokenInfo) (e : EnrichedPool) :
  In e (enrich_all ps discovered fetched tokenInfo) →
  ∃ d info, e = enrichPoolData ps d info tokenInfo "PancakeSwap".
Proof.
  unfold enrich_all. induction fetched as [|d l IH]; cbn; [tauto|].
  destruct (find_info discovered d) as [info|]; cbn.
  - intros [<- | H]; [eauto | auto].
  - auto.
Qed.

Lemma discoverAllPools_not_rugged (ps : PriceService.t) (discovered : list PoolInfo)
    (fetched : list PoolData) (tokenInfo : gmap string TokenInfo) (e : EnrichedPool) :
  In e (discoverAllPools ps discovered fetched tokenInfo) → status (liquidity e) ≠ RUGGED.
Proof.
  intros [Hin Hkeep]%in_discovered_pools.
  apply in_enrich_all in Hin as (d & info & ->).
  apply kept_pool_not_rugged. exact Hkeep.
Qed.

Lemma no_v3_rugged_among_formatted (ps : PriceService.t) (tokenAddress : string)
    (pools : list EnrichedPool) :
  (∀ e, In e pools → status (liquidity e) ≠ RUGGED) →
  List.filter is_v3_rugged (formatPoolsWithPricing ps pools tokenAddress) = [].
Proof.
  unfold formatPoolsWithPricing. induction pools as [|e l IH]; intros H; [reflexivity|].
  cbn [map List.filter].
  assert (is_v3_rugged (formatPool ps tokenAddress e) = false) as ->.
  { unfold is_v3_rugged, formatPool. cbn [f_liquidity f_status f_type].
    apply andb_false_iff. right. apply bool_decide_eq_false. apply H. left. reflexivity. }
  apply IH. intros e' He'. apply H. right. exact He'.
Qed.

Lemma has_code_addWarning (c c' : string) (s : risk) (w : Warnings) :
  has_code c (addWarning c' s w) ↔ c = c' ∨ has_code c w.
Proof.
  unfold has_code, addWarning. cbn [items]. rewrite map_app, in_app_iff. cbn.
  intuition congruence.
Qed.

Lemma has_code_when (c c' : string) (s : risk) (b : bool) (w : Warnings) :
  c ≠ c' → has_code c (when b (addWarning c' s) w) → has_code c w.
Proof.
  intros Hne. destruct b; cbn [when]; [|tauto].
  rewrite has_code_addWarning. intuition.
Qed.

Lemma mapSafetyWarning_codes (c : string) (s : risk) :
  mapSafetyWarning c = Some s → c ≠ "V3_RUGGED_POOLS"%string.
Proof. intros H ->. vm_compute in H. discriminate. Qed.

Lemma has_code_safety (l : list string) (w : Warnings) :
  has_code "V3_RUGGED_POOLS"
    (fold_left (λ acc safetyWarn,
                  match mapSafetyWarning safetyWarn with
                  | Some sev => addWarning safetyWarn sev acc
                  | None => acc
                  end) l w) →
  has_code "V3_RUGGED_POOLS" w.
Proof.
  revert w. induction l as [|x l IH]; intros w; cbn; [tauto|].
  intros H%IH. destruct (mapSafetyWarning x) eqn:E; [|exact H].
  apply has_code_addWarning in H as [H|H]; [|exact H].
  symmetry in H. apply mapSafetyWarning_codes in E. contradiction.
Qed.

Lemma has_code_warn_recommended (r : Recommended) (w : Warnings) :
  has_code "V3_RUGGED_POOLS" (warn_recommended r w) → has_code "V3_RUGGED_POOLS" w.
Proof.
  unfold warn_recommended. intros H.
  assert (H3 : has_code "V3_RUGGED_POOLS"
                 (fold_left (λ acc safetyWarn,
                    match mapSafetyWarning safetyWarn with
                    | Some sev => addWarning safetyWarn sev acc
                    | None => acc
                    end) (default [] (rec_safety_warnings r))
                    (let liquidityUSD :=
                       (Some (rec_liquidityUSD r |? toNumber (rec_liquidity_usd r)) |? JS.of_Z 0)%js in
                     let w1 :=
                       if (liquidityUSD <? JS.of_Z 1000)%js
                       then addWarning "EXTREMELY_LOW_LIQUIDITY" CRITICAL w
                       else if (liquidityUSD <? JS.of_Z 10000)%js
                       then addWarning "LOW_LIQUIDITY" HIGH w
                       else if (liquidityUSD <? JS.of_Z 50000)%js
                       then addWarning "MODERATE_LIQUIDITY" MEDIUM w
                       else w in
                     let slippage := (rec_slippagePercent r |? JS.of_Z 0)%js in
                     if (slippage >? JS.of_Z 5)%js then addWarning "EXTREME_SLIPPAGE" CRITICAL w1
                     else if (slippage >? JS.of_Z 2)%js then addWarning "HIGH_SLIPPAGE" HIGH w1
                     else if (slippage >? JS.of_Z 1)%js then addWarning "MODERATE_SLIPPAGE" MEDIUM w1
                     else w1))).
  { destruct (rec_riskLevel r) as [[]|]; try exact H;
      apply has_code_addWarning in H as [H|H]; (discriminate H || exact H). }
  apply has_code_safety in H3. cbv zeta in H3.
  repeat match type of H3 with
         | has_code _ (if ?b then _ else _) => destruct b
         | has_code _ (addWarning _ _ _) =>
             apply has_code_addWarning in H3 as [H3|H3]; [discriminate H3|]
         end; exact H3.
Qed.

Lemma has_code_warn_spread (a : PriceService.AggregatePrices) (w : Warnings) :
  has_code "V3_RUGGED_POOLS" (warn_spread a w) → has_code "V3_RUGGED_POOLS" w.
Proof.
  unfold warn_spread. cbv zeta.
  repeat match goal with |- context [if ?b then _ else _] => destruct b end;
    try tauto; rewrite has_code_addWarning; intros [H|H]; (discriminate H || exact H).
Qed.

Lemma has_code_sorted (c : string) (l : list WarningItem) :
  In c (map code (sort_by_severity l)) ↔ In c (map code l).
Proof.
  unfold sort_by_severity.
  pose proof (merge_sort_Permutation
                (λ a b, Is_true (severityOrder (severity a) <=? severityOrder (severity b))%nat)
                l) as P.
  split; apply Permutation_in, Permutation_map; [exact P | symmetry; exact P].
Qed.

(** The generator emits V3_RUGGED_POOLS only when some formatted pool is a V3
    pool with status RUGGED. *)
Lemma generateWarnings_v3_rugged (i : WarningInput) :
  has_code "V3_RUGGED_POOLS" (generateWarnings i) →
  List.filter is_v3_rugged (formattedPools i) ≠ [].
Proof.
  unfold generateWarnings, has_code. cbn [items]. rewrite has_code_sorted.
  fold (has_code "V3_RUGGED_POOLS"). cbv zeta.
  intros H HV. rewrite HV in H. cbn [length Nat.ltb Nat.leb when] in H.
  apply has_code_when in H; [|discriminate].
  assert (H8 : ∀ w, has_code "V3_RUGGED_POOLS"
                      match aggregatePrices i with
                      | Some a => warn_spread a w
                      | None => w
                      end → has_code "V3_RUGGED_POOLS" w).
  { intros w. destruct (aggregatePrices i); [apply has_code_warn_spread | tauto]. }
  apply H8 in H.
  assert (H7 : ∀ w, has_code "V3_RUGGED_POOLS"
                      match recommended i with
                      | Some r => warn_recommended r w
                      | None => w
                      end → has_code "V3_RUGGED_POOLS" w).
  { intros w. destruct (recommended i); [apply has_code_warn_recommended | tauto]. }
  apply H7 in H.
  repeat (apply has_code_when in H; [|discriminate]).
  exact H.
Qed.

(** On the batch path no analysis ever carries a V3_RUGGED_POOLS warning,
    whatever was fetched. *)
Lemma analysis_never_warns_v3_rugged (ps : PriceService.t) (tokenAddress : string)
    (discovered : list PoolInfo) (fetched : list PoolData) (tokenInfo : gmap string TokenInfo)
    (rec : option Recommended) (stale : bool) (total : JS.number)
    (protocols : list (string * fetch_status)) :
  ¬ has_code "V3_RUGGED_POOLS"
      (analysis_warnings ps tokenAddress discovered fetched tokenInfo rec stale total protocols).
Proof.
  intros H. apply generateWarnings_v3_rugged in H. apply H. cbn [formattedPools].
  apply no_v3_rugged_among_formatted.
  intros e He. eapply discoverAllPools_not_rugged. exact He.
Qed.

End RuggedWarning.

(** C3, a defect of the code.  Pool fetching returns one V3 pool with zero
    liquidity: enrichment marks it RUGGED, the filter at the end of
    [discoverAllPools] drops it because its [raw] liquidity is ['0'], and the
    warnings of the analysis hold NO_ACTIVE_POOLS alone: no V3_RUGGED_POOLS
    item is emitted. *)
Theorem rugged_v3_pool_raises_no_warning :
  let fetched := [PoolAnalyzer.DataV3 zero_liquidity_v3] in
  let e := PoolAnalyzer.enrichPoolData oracle300 (PoolAnalyzer.DataV3 zero_liquidity_v3)
             v3_info token_table "PancakeSwap" in
  let w := PoolAnalyzer.analysis_warnings (K := bsc) oracle300 target_address [v3_info] fetched
             token_table None false (JS.of_Z 120)
             [("pancakeswapV2"%string, PoolAnalyzer.Skipped);
              ("pancakeswapV3"%string, PoolAnalyzer.Success)] in
  PoolAnalyzer.status (PoolAnalyzer.liquidity e) = RUGGED
  ∧ PoolAnalyzer.enrich_all oracle300 [v3_info] fetched token_table = [e]
  ∧ PoolAnalyzer.discoverAllPools oracle300 [v3_info] fetched token_table = []
  ∧ map PoolAnalyzer.code (PoolAnalyzer.items w) = ["NO_ACTIVE_POOLS"%string]
  ∧ ¬ In "V3_RUGGED_POOLS"%string (map PoolAnalyzer.code (PoolAnalyzer.items w)).
Proof.
  vm_compute. repeat split. intros [H|[]]. discriminate H.
Qed.

(** ** Costs reported by the scorer *)

Section Costs.
Import PoolAnalyzer.

Lemma priceDeviation_push (w : string) (d : JS.number) (c : SafetyChecks) :
  priceDeviation (push w d c) = priceDeviation c.
Proof. reflexivity. Qed.

Local Ltac keep_deviation :=
  repeat match goal with |- context [if ?b then _ else _] => destruct b end;
  rewrite ?priceDeviation_push; reflexivity.

Lemma priceDeviation_check_v3_range (pool : FormattedPool) (c : SafetyChecks) :
  priceDeviation (check_v3_range pool c) = priceDeviation c.
Proof.
  unfold check_v3_range.
  destruct (f_type pool), (f_tick pool), (f_sqrtPriceX96 pool); try reflexivity.
  destruct (f_raw (f_liquidity pool) =? 0); reflexivity.
Qed.

Lemma priceDeviation_check_sandwich (t l : JS.number) (c : SafetyChecks) :
  priceDeviation (check_sandwich t l c) = priceDeviation c.
Proof. unfold check_sandwich. keep_deviation. Qed.

Lemma priceDeviation_check_depth (l : JS.number) (c : SafetyChecks) :
  priceDeviation (check_depth l c) = priceDeviation c.
Proof. unfold check_depth. keep_deviation. Qed.

Lemma priceDeviation_check_rug_pull (pool : FormattedPool) (c : SafetyChecks) :
  priceDeviation (check_rug_pull pool c) = priceDeviation c.
Proof. unfold check_rug_pull. keep_deviation. Qed.

Lemma priceDeviation_check_inactive (pool : FormattedPool) (c : SafetyChecks) :
  priceDeviation (check_inactive pool c) = priceDeviation c.
Proof. unfold check_inactive. keep_deviation. Qed.

Lemma priceDeviation_check_volatile_pair (pool : FormattedPool) (t : JS.number)
    (c : SafetyChecks) :
  priceDeviation (check_volatile_pair pool t c) = priceDeviation c.
Proof. unfold check_volatile_pair. keep_deviation. Qed.

Lemma priceDeviation_check_fee (pool : FormattedPool) (c : SafetyChecks) :
  priceDeviation (check_fee pool c) = priceDeviation c.
Proof. unfold check_fee. keep_deviation. Qed.

(** The deviation of a price from itself is zero or, for an infinite price,
    NaN. *)
Lemma self_deviation (p : JS.number) :
  (p >? JS.of_Z 0)%js = true →
  let d := (JS.abs ((p - p) / p) * JS.of_Z 100)%js in
  is_zero d ∨ d = JS.NaN.
Proof.
  destruct p as [q| | |]; try discriminate; intros Hp; [left | right; reflexivity].
  unfold JS.gtb in Hp. simpl in Hp. apply negb_true_iff, Qle_bool_false in Hp.
  unfold inject_Z in Hp.
  assert (Hq : Qeq_bool q 0 = false) by (apply Qeq_bool_false; lra).
  unfold is_zero, JS.sub, JS.neg, JS.add, JS.div. rewrite Hq.
  unfold JS.abs, JS.mul, JS.of_Z, JS.eqv.
  assert (E : ((q + - q) / q == 0)%Q) by (field; lra).
  rewrite E. reflexivity.
Qed.

Lemma priceDeviation_check_price_deviation (pool : FormattedPool) (c : SafetyChecks) :
  priceDeviation (check_price_deviation pool c) = priceDeviation c
  ∨ is_zero (priceDeviation (check_price_deviation pool c))
  ∨ priceDeviation (check_price_deviation pool c) = JS.NaN.
Proof.
  unfold check_price_deviation.
  destruct (inUSD (f_price pool) >? JS.of_Z 0)%js eqn:Hp; [|left; reflexivity].
  right. cbv zeta.
  destruct (self_deviation _ Hp) as [H|H];
    repeat match goal with |- context [if ?b then _ else _] => destruct b end;
    rewrite ?priceDeviation_push; cbn [priceDeviation]; auto.
Qed.

(** The rounded deviation that the scorer reads never exceeds 5. *)
Lemma rounded_deviation_small (d : JS.number) :
  is_zero d ∨ d = JS.NaN →
  (JS.round (d * JS.of_Z 100) / JS.of_Z 100 >? JS.of_Z 5)%js = false.
Proof.
  intros [(q & -> & Hq)%is_zero_Fin | ->]; [|reflexivity].
  unfold JS.mul, JS.of_Z, JS.round.
  assert (E : (q * inject_Z 100 + (1 # 2) == 1 # 2)%Q) by (rewrite Hq; reflexivity).
  rewrite (Qfloor_comp _ _ E). reflexivity.
Qed.

Lemma performSafetyChecks_deviation (pool : FormattedPool) (t l b : JS.number) :
  (priceDeviation (performSafetyChecks pool t l b) >? JS.of_Z 5)%js = false.
Proof.
  unfold performSafetyChecks. cbn [priceDeviation].
  rewrite priceDeviation_check_fee, priceDeviation_check_volatile_pair,
    priceDeviation_check_inactive, priceDeviation_check_rug_pull,
    priceDeviation_check_depth, priceDeviation_check_sandwich.
  apply rounded_deviation_small.
  destruct (priceDeviation_check_price_deviation pool (check_v3_range pool initial_checks))
    as [H | [H | H]]; [|auto|auto].
  rewrite H, priceDeviation_check_v3_range. left. apply is_zero_of_Z.
Qed.

(** [(fee / 1000000) * 100] is [fee / 10000]. *)
Lemma fee_percent (f : JS.number) :
  JS.eqv (f / JS.of_Z 1000000 * JS.of_Z 100)%js (f / JS.of_Z 10000)%js.
Proof.
  destruct f as [q| | |]; simpl; try exact I.
  unfold inject_Z. field.
Qed.

Lemma add_finite (x y : JS.number) :
  JS.isFinite (x + y)%js = true → ∃ a b, x = JS.Fin a ∧ y = JS.Fin b.
Proof. destruct x, y; try discriminate. eauto. Qed.

Lemma eqv_Fin_r (x : JS.number) (b : Q) : JS.eqv x (JS.Fin b) → ∃ a, x = JS.Fin a ∧ (a == b)%Q.
Proof. destruct x; simpl; try tauto. eauto. Qed.

(** Every formatted pool has a fee that is neither 0 nor NaN. *)
Lemma formatPool_fee_truthy `{K : Constants} (ps : PriceService.t) (tokenAddress : string)
    (e : EnrichedPool) :
  JS.truthy (fee (formatPool ps tokenAddress e)) = true.
Proof.
  unfold formatPool. cbn [fee]. unfold JS.or_else.
  destruct (JS.truthy (e_fee e)) eqn:E; [exact E|].
  destruct (e_feePercent e) as [q| | |] eqn:Ep; try reflexivity.
  cbn [JS.truthy]. destruct (Qeq_bool q 0) eqn:Eq; [reflexivity|].
  cbn [negb JS.mul JS.of_Z JS.truthy].
  apply negb_true_iff, Qeq_bool_false. apply Qeq_bool_false in Eq.
  intros H. apply Eq.
  assert (H' : (q * inject_Z 10000 * (1 # 10000) == 0 * (1 # 10000))%Q) by (rewrite H; reflexivity).
  unfold inject_Z in H'. ring_simplify in H'. rewrite H'. reflexivity.
Qed.

End Costs.

(** C5.  For a pool with a fee (every formatted pool has one), the reported
    total cost is the sum of the reported fee percentage and the reported
    slippage percentage; the fee percentage is [fee / 10000]; the slippage
    is the estimate of [estimateSlippage] for the pool and the trade size;
    hence, when finite, the total is within 1e-6 of
    [fee / 10000 + estimated slippage]. *)
Theorem totalCostPercent_is_fee_plus_slippage (pool : PoolAnalyzer.FormattedPool)
    (tradeAmountUSD bnbPrice : JS.number)
    (Hfee : JS.truthy (PoolAnalyzer.fee pool) = true) :
  let a := PoolAnalyzer.analyzePoolForTrade pool tradeAmountUSD bnbPrice in
  let c := PoolAnalyzer.costs a in
  let liquidityUSD := (Some (PoolAnalyzer.usd (PoolAnalyzer.f_liquidity pool)) |? JS.of_Z 0)%js in
  let estimate :=
    PoolAnalyzer.estimateSlippage pool tradeAmountUSD liquidityUSD (Some (PoolAnalyzer.safety a)) in
  PoolAnalyzer.c_totalCostPercent c
    = (PoolAnalyzer.c_feePercent c + PoolAnalyzer.c_slippagePercent c)%js
  ∧ JS.eqv (PoolAnalyzer.c_feePercent c) (PoolAnalyzer.fee pool / JS.of_Z 10000)%js
  ∧ PoolAnalyzer.c_slippagePercent c = estimate
  ∧ (JS.isFinite (PoolAnalyzer.c_totalCostPercent c) = true →
     (JS.abs (PoolAnalyzer.c_totalCostPercent c
              - (PoolAnalyzer.fee pool / JS.of_Z 10000 + estimate))
      <=? JS.lit 1 1000000)%js = true).
Proof.
  cbv zeta.
  assert (Hslip : PoolAnalyzer.c_slippagePercent
                    (PoolAnalyzer.costs (PoolAnalyzer.analyzePoolForTrade pool tradeAmountUSD bnbPrice))
                  = PoolAnalyzer.estimateSlippage pool tradeAmountUSD
                      (Some (PoolAnalyzer.usd (PoolAnalyzer.f_liquidity pool)) |? JS.of_Z 0)%js
                      (Some (PoolAnalyzer.safety
                               (PoolAnalyzer.analyzePoolForTrade pool tradeAmountUSD bnbPrice)))).
  { unfold PoolAnalyzer.analyzePoolForTrade.
    cbn [PoolAnalyzer.costs PoolAnalyzer.c_slippagePercent PoolAnalyzer.safety].
    rewrite performSafetyChecks_deviation. reflexivity. }
  assert (Hfp : JS.eqv (PoolAnalyzer.c_feePercent
                    (PoolAnalyzer.costs (PoolAnalyzer.analyzePoolForTrade pool tradeAmountUSD bnbPrice)))
                  (PoolAnalyzer.fee pool / JS.of_Z 10000)%js).
  { unfold PoolAnalyzer.analyzePoolForTrade.
    cbn [PoolAnalyzer.costs PoolAnalyzer.c_feePercent].
    unfold JS.or_else. rewrite Hfee. apply fee_percent. }
  assert (Htot : PoolAnalyzer.c_totalCostPercent
                    (PoolAnalyzer.costs (PoolAnalyzer.analyzePoolForTrade pool tradeAmountUSD bnbPrice))
                 = (PoolAnalyzer.c_feePercent
                      (PoolAnalyzer.costs (PoolAnalyzer.analyzePoolForTrade pool tradeAmountUSD bnbPrice))
                    + PoolAnalyzer.c_slippagePercent
                        (PoolAnalyzer.costs
                           (PoolAnalyzer.analyzePoolForTrade pool tradeAmountUSD bnbPrice)))%js)
    by reflexivity.
  repeat split; try assumption.
  rewrite Htot, Hslip. intros Hfin.
  destruct (add_finite _ _ Hfin) as (x & y & Hx & Hy).
  rewrite Hx in Hfp. rewrite Hx, Hy.
  destruct (PoolAnalyzer.fee pool / JS.of_Z 10000)%js as [z| | |]; simpl in Hfp; try contradiction.
  unfold JS.sub, JS.neg, JS.add, JS.abs, JS.leb, JS.lit.
  apply Qle_bool_iff.
  assert (E : (x + y + - (z + y) == 0)%Q) by (rewrite Hfp; ring).
  rewrite E. unfold Qle. simpl. lia.
Qed.

(** On the pair of the second scenario a fee of 3000 is reported as 0.3 %. *)
Lemma totalCostPercent_is_fee_plus_slippage_witness :
  JS.truthy (PoolAnalyzer.fee balanced_formatted) = true
  ∧ JS.eqv (PoolAnalyzer.c_feePercent
              (PoolAnalyzer.costs
                 (PoolAnalyzer.analyzePoolForTrade balanced_formatted (JS.of_Z 100) (JS.of_Z 300))))
           (PoolAnalyzer.fee balanced_formatted / JS.of_Z 10000)%js.
Proof.
  split; [reflexivity|].
  exact (proj1 (proj2 (totalCostPercent_is_fee_plus_slippage balanced_formatted
                         (JS.of_Z 100) (JS.of_Z 300) eq_refl))).
Defined.

Example balanced_pair_costs :
  let a := PoolAnalyzer.analyzePoolForTrade balanced_formatted (JS.of_Z 100) (JS.of_Z 300) in
  PoolAnalyzer.f_status (PoolAnalyzer.f_liquidity balanced_formatted) = ACTIVE
  ∧ JS.eqv (PoolAnalyzer.usd (PoolAnalyzer.f_liquidity balanced_formatted)) (JS.of_Z 1200)
  ∧ JS.eqv (PoolAnalyzer.c_feePercent (PoolAnalyzer.costs a)) (JS.lit 3 10)
  ∧ JS.eqv (PoolAnalyzer.c_slippagePercent (PoolAnalyzer.costs a)) (JS.lit 25 6)
  ∧ JS.eqv (PoolAnalyzer.c_totalCostPercent (PoolAnalyzer.costs a)) (JS.lit 134 30).
Proof. vm_compute. repeat split. Qed.

(** ** Refresh of the price oracle *)

Section Refresh.
Import PriceService.
Context {K : Constants}.

Lemma bnb_in_band_inside (x : JS.number) :
  bnb_in_band x = strictly_inside (JS.of_Z 100) (JS.of_Z 2000) x.
Proof.
  unfold bnb_in_band, strictly_inside, JS.gtb.
  destruct x as [q| | |]; try reflexivity.
  destruct (JS.of_Z 100 <? JS.Fin q)%js eqn:E.
  - apply ltb_Fin in E. unfold inject_Z in E.
    assert (H0 : (JS.of_Z 0 <? JS.Fin q)%js = true) by (apply ltb_Fin; unfold inject_Z; lra).
    assert (Ht : JS.truthy (JS.Fin q) = true).
    { simpl. apply negb_true_iff, Qeq_bool_false. lra. }
    rewrite H0, Ht. reflexivity.
  - rewrite andb_false_r. reflexivity.
Qed.

Lemma cake_in_band_inside (x : JS.number) :
  cake_in_band x = strictly_inside (JS.lit 1 10) (JS.of_Z 100) x.
Proof.
  unfold cake_in_band, strictly_inside, JS.gtb.
  destruct x as [q| | |]; try reflexivity.
  destruct (JS.lit 1 10 <? JS.Fin q)%js eqn:E.
  - apply ltb_Fin in E.
    assert (H0 : (JS.of_Z 0 <? JS.Fin q)%js = true) by (apply ltb_Fin; unfold inject_Z; lra).
    assert (Ht : JS.truthy (JS.Fin q) = true).
    { simpl. apply negb_true_iff, Qeq_bool_false. lra. }
    rewrite H0, Ht. reflexivity.
  - rewrite andb_false_r. reflexivity.
Qed.

(** The continuation of a refresh writes a price exactly when the local
    lies strictly inside its band. *)
Lemma fetch_finish_stores (ps : t) (now : Z) (locals : Fetched) (out : MulticallOutcome) :
  toLowerCase WBNB ≠ toLowerCase CAKE →
  let r := fetch_finish ps now locals out in
  bnbPriceUSD r.1
    = (if strictly_inside (JS.of_Z 100) (JS.of_Z 2000) (bnb r.2) then bnb r.2
       else bnbPriceUSD ps)
  ∧ basePrices r.1 !! toLowerCase WBNB
    = (if strictly_inside (JS.of_Z 100) (JS.of_Z 2000) (bnb r.2) then Some (bnb r.2)
       else basePrices ps !! toLowerCase WBNB)
  ∧ basePrices r.1 !! toLowerCase CAKE
    = (if strictly_inside (JS.lit 1 10) (JS.of_Z 100) (cake r.2) then Some (cake r.2)
       else basePrices ps !! toLowerCase CAKE).
Proof.
  intros Hne. unfold fetch_finish. cbv zeta.
  rewrite bnb_in_band_inside, cake_in_band_inside.
  destruct (strictly_inside (JS.of_Z 100) (JS.of_Z 2000) (bnb (decode_prices out locals)))
    eqn:E1;
    destruct (strictly_inside (JS.lit 1 10) (JS.of_Z 100) (cake (decode_prices out locals)))
      eqn:E2;
    cbn [fst snd basePrices bnbPriceUSD bnb cake];
    rewrite ?E1, ?E2;
    repeat split;
    rewrite ?lookup_insert_eq; try reflexivity;
    rewrite ?lookup_insert_ne by congruence;
    rewrite ?lookup_insert_eq; reflexivity.
Qed.

(** A refresh keeps the oracle well formed. *)
Lemma fetch_keeps_wf (ps : t) (now : Z) (out : MulticallOutcome) :
  toLowerCase WBNB ≠ toLowerCase CAKE →
  oracle_wf ps → oracle_wf (fetchTokenPricesFromChain ps now out).1.
Proof.
  intros Hne [Hw (c & Hc & Ht)]. unfold fetchTokenPricesFromChain, fetch_begin.
  destruct (now - lastPriceUpdate ps <? priceUpdateInterval ps);
    [split; eauto|].
  destruct (fetchLock ps); [split; eauto|].
  match goal with |- oracle_wf (fetch_finish ?p ?n ?l ?o).1 =>
    destruct (fetch_finish_stores p n l o Hne) as (Hb & Hbw & Hcw);
    set (r := fetch_finish p n l o) in *
  end.
  cbn [basePrices bnbPriceUSD] in Hb, Hbw, Hcw.
  split.
  - rewrite Hbw, Hb. destruct (strictly_inside _ _ (bnb r.2)); [reflexivity | exact Hw].
  - rewrite Hcw. destruct (strictly_inside _ _ (cake r.2)) eqn:E; [|eauto].
    eexists. split; [reflexivity|].
    rewrite <- cake_in_band_inside in E. unfold cake_in_band in E.
    repeat (apply andb_true_iff in E as [E _]). exact E.
Qed.

End Refresh.

(** C7.  In a well-formed oracle, a refresh leaves as the stored wrapper
    price (both copies) the fetched value when that lies strictly inside
    (100, 2000) and the previous price otherwise; it leaves as the stored
    ecosystem price the fetched value when that lies strictly inside
    (0.1, 100) and the previous price otherwise.  The fetched values are the
    ones the call returns. *)
Theorem refresh_stores_only_prices_inside_band `{K : Constants} (ps : PriceService.t)
    (now : Z) (out : PriceService.MulticallOutcome)
    (Hwf : oracle_wf ps) (Hne : toLowerCase WBNB ≠ toLowerCase CAKE) :
  let r := PriceService.fetchTokenPricesFromChain ps now out in
  let fetched := r.2 in
  PriceService.bnbPriceUSD r.1
    = (if strictly_inside (JS.of_Z 100) (JS.of_Z 2000) (PriceService.bnb fetched)
       then PriceService.bnb fetched else PriceService.bnbPriceUSD ps)
  ∧ PriceService.basePrices r.1 !! toLowerCase WBNB = Some (PriceService.bnbPriceUSD r.1)
  ∧ PriceService.basePrices r.1 !! toLowerCase CAKE
    = (if strictly_inside (JS.lit 1 10) (JS.of_Z 100) (PriceService.cake fetched)
       then Some (PriceService.cake fetched)
       else PriceService.basePrices ps !! toLowerCase CAKE).
Proof.
  cbv zeta.
  pose proof (fetch_keeps_wf ps now out Hne Hwf) as [Hw' _].
  split; [|split; [exact Hw'|]].
  - destruct Hwf as [Hw (c & Hc & Ht)].
    unfold PriceService.fetchTokenPricesFromChain, PriceService.fetch_begin.
    destruct (now - PriceService.lastPriceUpdate ps <? PriceService.priceUpdateInterval ps).
    { cbn. destruct (strictly_inside _ _ _); reflexivity. }
    destruct (PriceService.fetchLock ps).
    { cbn. destruct (strictly_inside _ _ _); reflexivity. }
    match goal with |- context [PriceService.fetch_finish ?p ?n ?l ?o] =>
      destruct (fetch_finish_stores p n l o Hne) as (Hb & _)
    end.
    exact Hb.
  - destruct Hwf as [Hw (c & Hc & Ht)].
    unfold PriceService.fetchTokenPricesFromChain, PriceService.fetch_begin.
    destruct (now - PriceService.lastPriceUpdate ps <? PriceService.priceUpdateInterval ps).
    { cbn. rewrite Hc. destruct (strictly_inside _ _ _); reflexivity. }
    destruct (PriceService.fetchLock ps).
    { cbn. rewrite Hc. destruct (strictly_inside _ _ _); reflexivity. }
    match goal with |- context [PriceService.fetch_finish ?p ?n ?l ?o] =>
      destruct (fetch_finish_stores p n l o Hne) as (_ & _ & Hcw)
    end.
    exact Hcw.
Qed.

(** The statement holds of the seeded oracle and a reading of about 612 USD. *)
Lemma refresh_stores_only_prices_inside_band_witness :
  oracle_wf (K := bsc) oracle_seeded
  ∧ toLowerCase (@WBNB bsc) ≠ toLowerCase (@CAKE bsc)
  ∧ let r := PriceService.fetchTokenPricesFromChain (K := bsc) oracle_seeded 100000 reading_612 in
    PriceService.basePrices r.1 !! toLowerCase (@WBNB bsc)
    = Some (PriceService.bnbPriceUSD r.1).
Proof.
  assert (Hwf : oracle_wf (K := bsc) oracle_seeded).
  { split; [reflexivity|]. exists (JS.lit 5 2). split; reflexivity. }
  assert (Hne : toLowerCase (@WBNB bsc) ≠ toLowerCase (@CAKE bsc)).
  { vm_compute. intros H. discriminate H. }
  split; [exact Hwf|]. split; [exact Hne|].
  exact (proj1 (proj2 (refresh_stores_only_prices_inside_band (K := bsc) oracle_seeded 100000
                         reading_612 Hwf Hne))).
Defined.

Example refresh_reading_612 :
  let r := PriceService.fetchTokenPricesFromChain (K := bsc) oracle_seeded 100000 reading_612 in
  strictly_inside (JS.of_Z 100) (JS.of_Z 2000) (PriceService.bnb r.2) = true
  ∧ (JS.of_Z 611 <? PriceService.bnbPriceUSD r.1)%js = true
  ∧ (PriceService.bnbPriceUSD r.1 <? JS.of_Z 613)%js = true
  ∧ PriceService.basePrices r.1 !! toLowerCase (@CAKE bsc) = Some (JS.lit 5 2)
  ∧ PriceService.lastPriceUpdate r.1 = 100000.
Proof. vm_compute. repeat split. Qed.

(** ** The aggregate price *)

Section Aggregate.
Import PriceService.
Context {K : Constants}.















End Aggregate.



(** In the outlier scenario the median is 1.01, the pool at 50.00 is left
    out and the average is 1.005. *)
Example outlier_scenario :
  let pws := map (PriceService.with_liquidity (K := bsc) oracle300 target_address) outlier_pools in
  let a := PriceService.calculateAggregatePrice (K := bsc) oracle300 outlier_pools target_address in
  PriceService.medianUSD_of pws = JS.lit 101 100
  ∧ length (List.filter (AggregateSpec.included (PriceService.medianUSD_of pws)) pws) = 4%nat
  ∧ JS.eqv (PriceService.avgPriceUSD a) (JS.lit 1005 1000)
  ∧ JS.eqv (PriceService.maxPriceUSD a) (JS.of_Z 50).
Proof. vm_compute. repeat split. Qed.

(** ** The single-flight fill of the cache *)

Section SingleFlight.
Import Cache.
Context {Data : Type}.

Local Abbreviation State := (Cache.State Data).
Local Abbreviation Tick := (Cache.Tick Data).
Local Abbreviation Acquired := (Cache.Acquired Data).





End SingleFlight.



(** A waiter on a wedged lock polls at 0, 2000, 4000 and 6000 ms, removes the
    lock entry and returns the (absent) value without fetching. *)
Example getOrSet_on_wedged_lock :
  ∃ run, Cache.getOrSet wedged "k" (Cache.Resolves (Some (Cache.VData 1%nat))) 300 0 three_sleeps
         = Some run
         ∧ Cache.completion run = Cache.Returned None
         ∧ Cache.trace run = [Cache.EvGet None; Cache.EvLockForced; Cache.EvGet None]
         ∧ Cache.locks (Cache.final run) !! "k"%string = None.
Proof. eexists. vm_compute. repeat split. Qed.

(** A caller that finds the key absent and the lock free fetches, writes and
    releases. *)
Example getOrSet_fills :
  ∃ run, Cache.getOrSet vacant "k" (Cache.Resolves (Some (Cache.VData 1%nat))) 300 0 []
         = Some run
         ∧ Cache.completion run = Cache.Returned (Some (Cache.VData 1%nat))
         ∧ Cache.trace run = [Cache.EvGet None; Cache.EvLockTaken; Cache.EvGet None;
                              Cache.EvFetch; Cache.EvSet (Cache.VData 1%nat) 300;
                              Cache.EvRelease]
         ∧ Cache.store (Cache.final run) !! "k"%string = Some (Cache.VData 1%nat)
         ∧ Cache.locks (Cache.final run) !! "k"%string = None.
Proof. eexists. vm_compute. repeat split. Qed.

(** ** De-duplication of concurrent analyses *)

Section Deduplication.
Import AnalyzeToken.
Context {Result : Type}.

Local Abbreviation Analyzer := (AnalyzeToken.Analyzer Result).

(** A request that starts an analysis leaves its key in flight and no cached
    analysis that a plain request could be served from. *)
Lemma analyzeToken_starts (a a' : Analyzer) (addr : string) (force : bool)
    (promise : nat) (key : string) :
  analyzeToken a addr force = (a', AwaitsOwn promise key) →
  key = inFlightKey addr force
  ∧ inFlightRequests a' !! key = Some promise
  ∧ started a' = S (started a)
  ∧ (force = true ∨ analysisCache a' !! addr = None).
Proof.
  unfold analyzeToken. destruct force.
  - destruct (inFlightRequests _ !! _); intros [= <- <- <-].
    cbn. rewrite lookup_insert_eq. auto.
  - destruct (analysisCache a !! addr) eqn:E; [discriminate|].
    destruct (inFlightRequests _ !! _); intros [= <- <- <-].
    cbn. rewrite lookup_insert_eq. auto.
Qed.

End Deduplication.

(** C9, as the code has it.  While an analysis for [(address, forceRefresh)]
    is in flight, a further request for the same pair starts no analysis (no
    upstream fetch set) and leaves the in-flight map as it is.  Unless a
    cached analysis of the address is available and [forceRefresh] is false,
    in which case that analysis is returned at once with [cached = true], the
    request awaits the very promise that is in flight and, once the promise
    is fulfilled, returns its result with [deduplicated = true].  When the
    promise settles, the continuation of the request that started it removes
    the entry from the in-flight map. *)
Theorem analyzeToken_deduplicates {Result : Type} (a : AnalyzeToken.Analyzer Result)
    (addr : string) (force : bool) (promise : nat)
    (Hflight : AnalyzeToken.inFlightRequests a !! AnalyzeToken.inFlightKey addr force
               = Some promise) :
  let r := AnalyzeToken.analyzeToken a addr force in
  AnalyzeToken.started r.1 = AnalyzeToken.started a
  ∧ AnalyzeToken.inFlightRequests r.1 = AnalyzeToken.inFlightRequests a
  ∧ ((force = true ∨ AnalyzeToken.analysisCache a !! addr = None) →
     r.2 = AnalyzeToken.AwaitsInFlight promise)
  ∧ (∀ c, force = false → AnalyzeToken.analysisCache a !! addr = Some c →
     r.2 = AnalyzeToken.Returns
             {| AnalyzeToken.result := c; AnalyzeToken.cached := true;
                AnalyzeToken.deduplicated := false;
                AnalyzeToken.waitedForInFlight := false |})
  ∧ (∀ res : Result, AnalyzeToken.resume_joined (AnalyzeToken.Fulfilled res)
            = Some {| AnalyzeToken.result := res; AnalyzeToken.cached := false;
                      AnalyzeToken.deduplicated := true;
                      AnalyzeToken.waitedForInFlight := true |})
  ∧ (∀ (a' : AnalyzeToken.Analyzer Result) (s : AnalyzeToken.Settled Result),
     AnalyzeToken.inFlightRequests
               (AnalyzeToken.resume_own a' (AnalyzeToken.inFlightKey addr force) s).1
             !! AnalyzeToken.inFlightKey addr force = None).
Proof.
  cbv zeta. unfold AnalyzeToken.analyzeToken.
  destruct force.
  - cbn [AnalyzeToken.clearAllCachesForToken AnalyzeToken.inFlightRequests].
    rewrite Hflight. cbn.
    repeat split; try discriminate.
    intros a' s. apply lookup_delete_eq.
  - destruct (AnalyzeToken.analysisCache a !! addr) as [c|] eqn:E.
    + cbn. repeat split.
      * intros [H|H]; discriminate H.
      * intros c' _ [= <-]. reflexivity.
      * intros a' s. apply lookup_delete_eq.
    + rewrite Hflight. cbn. repeat split.
      * intros c' _ H. discriminate H.
      * intros a' s. apply lookup_delete_eq.
Qed.

(** The statement holds of two requests in a row on a fresh service. *)
Lemma analyzeToken_deduplicates_witness :
  let a := AnalyzeToken.analyzer
             (AnalyzeToken.run (Result := nat) [AnalyzeToken.Request token_a false]) in
  AnalyzeToken.inFlightRequests a !! AnalyzeToken.inFlightKey token_a false = Some 0%nat
  ∧ AnalyzeToken.started (AnalyzeToken.analyzeToken a token_a false).1 = 1%nat
  ∧ (AnalyzeToken.analyzeToken a token_a false).2 = AnalyzeToken.AwaitsInFlight 0%nat.
Proof.
  cbv zeta. split; [reflexivity|].
  pose proof (analyzeToken_deduplicates
                (AnalyzeToken.analyzer
                   (AnalyzeToken.run (Result := nat) [AnalyzeToken.Request token_a false]))
                token_a false 0%nat eq_refl) as H.
  split; [exact (proj1 H) | exact (proj1 (proj2 (proj2 H)) (or_intror eq_refl))].
Defined.

(** C9 as stated fails: the first plain request is still in flight when a
    forced refresh of the same token completes and caches its analysis; the
    next plain request is then served from the cache: it does not await the
    in-flight promise and its answer is not marked as de-duplicated. *)
Lemma analyzeToken_cached_while_in_flight :
  let a := AnalyzeToken.analyzer overtaken in
  AnalyzeToken.inFlightRequests a !! AnalyzeToken.inFlightKey token_a false = Some 0%nat
  ∧ AnalyzeToken.owners overtaken !! 0%nat
    = Some (token_a, AnalyzeToken.inFlightKey token_a false, 0%nat)
  ∧ (AnalyzeToken.analyzeToken a token_a false).2 ≠ AnalyzeToken.AwaitsInFlight 0%nat
  ∧ (AnalyzeToken.analyzeToken a token_a false).2
    = AnalyzeToken.Returns
        {| AnalyzeToken.result := 42%nat; AnalyzeToken.cached := true;
           AnalyzeToken.deduplicated := false; AnalyzeToken.waitedForInFlight := false |}.
Proof.
  vm_compute. repeat split. intros H. discriminate H.
Qed.

(** Two concurrent requests on a fresh service: one analysis is started, the
    second request joins it, and at settlement the first answer is the
    plain result and the second carries [deduplicated = true]. *)
Example two_concurrent_requests :
  let sv := AnalyzeToken.run (Result := nat)
              [ AnalyzeToken.Request token_a false; AnalyzeToken.Request token_a false;
                AnalyzeToken.Settle 0%nat (AnalyzeToken.Fulfilled 42%nat) ] in
  AnalyzeToken.started (AnalyzeToken.analyzer sv) = 1%nat
  ∧ AnalyzeToken.inFlightRequests (AnalyzeToken.analyzer sv)
    !! AnalyzeToken.inFlightKey token_a false = None
  ∧ map (λ r, (r.1, AnalyzeToken.deduplicated <$> r.2)) (AnalyzeToken.responses sv)
    = [(0%nat, Some false); (1%nat, Some true)].
Proof. vm_compute. repeat split. Qed.

(** ** Leg output on the pools of an analysis *)

(** The pools of an analysis carry [price.inUSD] and no [price.usd]: for
    them the swap value is 0 and so is the impact, for any finite amount and
    positive liquidity. *)
Lemma estimateSwapOutput_without_usd_price (f r : option JS.number) (a lq : Q) (dir : bool) :
  (0 < lq)%Q →
  JS.eqv (Router.priceImpact
            (Router.estimateSwapOutput
               {| Router.leg_liquidity_usd := Some (JS.Fin lq); Router.leg_price_usd := None;
                  Router.leg_fee := f; Router.leg_price_ratio := r |} (JS.Fin a) dir))
         (JS.of_Z 0).
Proof.
  intros Hl. unfold Router.estimateSwapOutput.
  cbn [Router.leg_liquidity_usd Router.leg_price_usd Router.priceImpact].
  assert (Hz : Qeq_bool lq 0 = false) by (apply Qeq_bool_false; lra).
  assert (Ht : (Some (JS.Fin lq) |? JS.of_Z 0)%js = JS.Fin lq).
  { unfold JS.or_else, JS.truthy. rewrite Hz. reflexivity. }
  rewrite Ht.
  assert (Hg : (JS.Fin lq >? JS.of_Z 0)%js = true).
  { unfold JS.gtb. apply ltb_Fin. unfold inject_Z. exact Hl. }
  rewrite Hg.
  assert (Hs : (JS.Fin a * (None |? JS.of_Z 0) / JS.of_Z (10 ^ 18))%js
               = JS.Fin (a * inject_Z 0 / inject_Z (10 ^ 18))).
  { reflexivity. }
  rewrite Hs. unfold JS.div at 1. rewrite Hz. unfold JS.mul, JS.of_Z.
  assert (E : (a * inject_Z 0 / inject_Z (10 ^ 18) / lq * inject_Z 100 == 0)%Q).
  { unfold Qdiv. change (inject_Z 0) with 0%Q. ring. }
  unfold JS.min, JS.ltb.
  destruct (negb (Qle_bool _ _)) eqn:Hc.
  - apply negb_true_iff, Qle_bool_false in Hc. rewrite E in Hc. unfold inject_Z in Hc. lra.
  - unfold JS.eqv. rewrite E. reflexivity.
Qed.

(** ** The aggregate price on the pools of an analysis *)

(** [calculateAggregatePrice] reads [price.token1Price]/[price.token0Price]
    of a V3 pool, which a formatted pool does not have: the per-pool USD
    price it collects for a formatted V3 pool is never positive, so such a
    pool takes no part in the median or the average. *)
Lemma formatted_v3_pool_not_counted `{K : Constants} (ps : PriceService.t) (addr : string)
    (pool : PoolAnalyzer.FormattedPool) :
  PoolAnalyzer.f_type pool = V3 →
  (AggregateSpec.price (PriceService.with_liquidity ps addr (PoolAnalyzer.aggregate_view pool))
   >? JS.of_Z 0)%js = false.
Proof.
  intros Ht. unfold AggregateSpec.price, PriceService.with_liquidity.
  cbn [PriceService.pw_prices]. unfold PriceService.calculatePoolPrices.
  cbn [PoolAnalyzer.aggregate_view price pool_type_of token0 token1 PriceService.pp_priceInUSD].
  rewrite Ht.
  assert (Hside : (if String.eqb (toLowerCase (address (PoolAnalyzer.f_token0 pool)))
                        (toLowerCase addr)
                   then token1Price {| token0Price := None; token1Price := None;
                                       ratio := Some (PoolAnalyzer.p_ratio (PoolAnalyzer.f_price pool)) |}
                   else token0Price {| token0Price := None; token1Price := None;
                                       ratio := Some (PoolAnalyzer.p_ratio (PoolAnalyzer.f_price pool)) |})
                  = None) by (destruct (String.eqb _ _); reflexivity).
  rewrite Hside. unfold PriceService.calculateTokenPrices. cbn [toNumber default].
  repeat match goal with
         | |- context [if ?b then _ else _] => destruct b
         | |- context [match ?o with Some _ => _ | None => _ end] => destruct o
         end; reflexivity.
Qed.
